(** * HeartPi: the risk scoring and synthetic signal engine

    A shallow embedding of [FamilyHealth] (FamilyHealth.h, FamilyHealth.cpp),
    [RandomNumberGenerator] (RandomNumberGenerator.h/.cpp) and
    [assessHeartHealth] (Calculations.cpp), and the properties the
    specification states about them.

    Conventions.
    - A C++ [int] is a [Z]; the only conversion in the code,
      [static_cast<int>(vector.size())], has its wrap-around written out
      ([static_cast_int]).  The running [riskScore] never leaves [5, 25]
      ([riskScore_bounds]), so its additions are plain additions on [Z].
    - A C++ [double] is a rational [Q]: a literal denotes its decimal value
      and rounding is not modelled.
    - A computation that the C++ code can abandon (an exception, an abort, an
      unchecked vector index out of range) is an [option]: [None] is the
      abandoned run. *)

From Stdlib Require Import ZArith QArith Lia Lqa.
From stdpp Require Import base option list strings.

Local Open Scope Z_scope.

(** ** Machine integers *)

(** [static_cast<int>(x)] for a non-negative size [x]: reduction modulo 2^32
    into the signed range. *)
Definition static_cast_int (x : Z) : Z :=
  (x + 2 ^ 31) mod 2 ^ 32 - 2 ^ 31.

(** ** FamilyHealth (FamilyHealth.h, FamilyHealth.cpp) *)

Module FamilyHealth.

Record t : Type := mk {
  ageGroup : Z;
  gender : bool;
  sleepHours : Z;
  exerciseFrequency : Z;
  dietType : Z;
  isSmoker : bool;
  familyDiseases : list string;
  familyDiseasesHistory : list bool
}.

(** The constructor initialises the two vectors only; the scalar members
    keep the indeterminate values [u] of the storage the object is built
    in. *)
Definition FamilyHealth (u : t) : t :=
  {| ageGroup := ageGroup u;
     gender := gender u;
     sleepHours := sleepHours u;
     exerciseFrequency := exerciseFrequency u;
     dietType := dietType u;
     isSmoker := isSmoker u;
     familyDiseases :=
       [ "Heart attack or coronary artery disease";
         "Diabetes (Type 2)";
         "High cholesterol";
         "High blood pressure" ]%string;
     familyDiseasesHistory := replicate 4 false |}.

Definition getAgeGroup (f : t) : Z := ageGroup f.
Definition getGender (f : t) : bool := gender f.
Definition getSleepHours (f : t) : Z := sleepHours f.
Definition getExerciseFrequency (f : t) : Z := exerciseFrequency f.
Definition getDietType (f : t) : Z := dietType f.
Definition getIsSmoker (f : t) : bool := isSmoker f.

Definition getFamilyHistoryCount (f : t) : Z :=
  static_cast_int (Z.of_nat (length (familyDiseasesHistory f))).

Definition getFamilyDiseases (f : t) : list string := familyDiseases f.

(** [familyDiseasesHistory[diseaseIndex]] is an unchecked access: outside
    the vector it has no defined result, hence the [option]. *)
Definition hasFamilyDisease (f : t) (diseaseIndex : Z) : option bool :=
  if (diseaseIndex <? 0) || (diseaseIndex >=? getFamilyHistoryCount f)
  then Some false
  else familyDiseasesHistory f !! Z.to_nat diseaseIndex.

Definition setAgeGroup (value : Z) (f : t) : t :=
  mk value (gender f) (sleepHours f) (exerciseFrequency f) (dietType f)
     (isSmoker f) (familyDiseases f) (familyDiseasesHistory f).

Definition setGender (value : bool) (f : t) : t :=
  mk (ageGroup f) value (sleepHours f) (exerciseFrequency f) (dietType f)
     (isSmoker f) (familyDiseases f) (familyDiseasesHistory f).

Definition setSleepHours (value : Z) (f : t) : t :=
  mk (ageGroup f) (gender f) value (exerciseFrequency f) (dietType f)
     (isSmoker f) (familyDiseases f) (familyDiseasesHistory f).

Definition setExerciseFrequency (value : Z) (f : t) : t :=
  mk (ageGroup f) (gender f) (sleepHours f) value (dietType f)
     (isSmoker f) (familyDiseases f) (familyDiseasesHistory f).

Definition setDietType (value : Z) (f : t) : t :=
  mk (ageGroup f) (gender f) (sleepHours f) (exerciseFrequency f) value
     (isSmoker f) (familyDiseases f) (familyDiseasesHistory f).

Definition setIsSmoker (value : bool) (f : t) : t :=
  mk (ageGroup f) (gender f) (sleepHours f) (exerciseFrequency f)
     (dietType f) value (familyDiseases f) (familyDiseasesHistory f).

Definition setFamilyDiseaseHistory (index : Z) (value : bool) (f : t) : t :=
  if (index >=? 0)
     && (index <? static_cast_int (Z.of_nat (length (familyDiseasesHistory f))))
  then mk (ageGroup f) (gender f) (sleepHours f) (exerciseFrequency f)
          (dietType f) (isSmoker f) (familyDiseases f)
          (<[Z.to_nat index := value]> (familyDiseasesHistory f))
  else f.

(** The class invariant: both vectors have the four entries the
    constructor gives them. No member function resizes them. *)
Definition wf (f : t) : Prop :=
  length (familyDiseases f) = 4%nat /\
  length (familyDiseasesHistory f) = 4%nat.

End FamilyHealth.
Import FamilyHealth.

(** ** The <random> facilities the code builds on

    [std::random_device], [std::mt19937] and
    [std::uniform_real_distribution<double>] belong to the C++ standard
    library, not to the repository; they are an interface here.
    [uniform_real_distribution a b] is the distribution's constructor:
    [None] is a library that rejects the bounds (an assertion build). *)

Record StdRandom : Type := {
  device : Type;
  random_device : device -> Z * device;
  engine : Type;
  mt19937 : Z -> engine;
  distribution : Type;
  uniform_real_distribution : Q -> Q -> option distribution;
  draw : distribution -> engine -> Q * engine
}.

(** ** RandomNumberGenerator (RandomNumberGenerator.h, .cpp) *)

Module RandomNumberGenerator.
Section WithLibrary.
Variable L : StdRandom.

Record t : Type := mk {
  rng : engine L;
  dist : distribution L
}.

(** [: rng(std::random_device{}()), dist(min, max) {}] : the members are
    initialised in declaration order, and neither bound is inspected. *)
Definition RandomNumberGenerator (min max : Q) (dev : device L)
  : option (t * device L) :=
  let '(seed, dev') := random_device L dev in
  let rng := mt19937 L seed in
  dist ← uniform_real_distribution L min max;
  Some (mk rng dist, dev').

(** [return dist(rng);] *)
Definition generate (g : t) : Q * t :=
  let '(x, rng') := draw L (dist g) (rng g) in
  (x, mk rng' (dist g)).

(** The expression [RandomNumberGenerator(min, max).generate()] on a
    temporary, as every caller writes it. *)
Definition sample (min max : Q) (dev : device L) : option (Q * device L) :=
  '(g, dev') ← RandomNumberGenerator min max dev;
  Some (fst (generate g), dev').

End WithLibrary.
End RandomNumberGenerator.

(** The contract the specification gives the sampler: with [min <= max] a
    call returns, and its value lies in [[min, max]]. *)
Definition sampler_contract (L : StdRandom) : Prop :=
  forall (min max : Q) (dev : device L),
    (min <= max)%Q ->
    exists v dev',
      RandomNumberGenerator.sample L min max dev = Some (v, dev') /\
      (min <= v <= max)%Q.

(** ** assessHeartHealth (Calculations.cpp) *)

Module Calculations.

(** 1) Age-based *)
Definition ageBased (family : FamilyHealth.t) : Z :=
  if (getAgeGroup family =? 1) || (getAgeGroup family =? 2) then 1
  else if (getAgeGroup family =? 3) || (getAgeGroup family =? 4) then 2
  else 3.

(** 2) Gender-based: [false] is Female, [true] is Male. *)
Definition genderBased (family : FamilyHealth.t) : Z :=
  if negb (getGender family) then
    if getAgeGroup family <=? 3 then 1 else 3
  else
    if getAgeGroup family <=? 3 then 2 else 3.

(** 3) Sleep Hours *)
Definition sleepBased (family : FamilyHealth.t) : Z :=
  if (getSleepHours family =? 1) || (getSleepHours family =? 5) then 3
  else if getSleepHours family =? 2 then 2
  else 1.

(** 4) Exercise Frequency *)
Definition exerciseBased (family : FamilyHealth.t) : Z :=
  if getExerciseFrequency family =? 1 then 3
  else if getExerciseFrequency family =? 2 then 2
  else 1.

(** 5) Family disease(s): four [if]s without [else], one per index. *)
Definition familyDiseaseBased (family : FamilyHealth.t) : option Z :=
  d0 ← hasFamilyDisease family 0;
  d1 ← hasFamilyDisease family 1;
  d2 ← hasFamilyDisease family 2;
  d3 ← hasFamilyDisease family 3;
  Some ((if d0 : bool then 2 else 0) + (if d1 : bool then 1 else 0)
        + (if d2 : bool then 2 else 0) + (if d3 : bool then 2 else 0)).

(** 6) Diet type: the chain ends in [else if], there is no final [else]. *)
Definition dietBased (family : FamilyHealth.t) : Z :=
  let dt := getDietType family in
  if dt =? 4 then 3
  else if (dt =? 1) || (dt =? 2) || (dt =? 3) || (dt =? 6) then 1
  else if dt =? 5 then 2
  else 0.

(** 7) Smoking *)
Definition smokingBased (family : FamilyHealth.t) : Z :=
  if getIsSmoker family then 3 else 1.

(** Lines 46-108: [int riskScore = 0;] and the seven blocks of
    [riskScore += ...], in source order. *)
Definition riskScore (family : FamilyHealth.t) : option Z :=
  let riskScore := 0 in
  let riskScore := riskScore + ageBased family in
  let riskScore := riskScore + genderBased family in
  let riskScore := riskScore + sleepBased family in
  let riskScore := riskScore + exerciseBased family in
  fd ← familyDiseaseBased family;
  let riskScore := riskScore + fd in
  let riskScore := riskScore + dietBased family in
  let riskScore := riskScore + smokingBased family in
  Some riskScore.

(** What one call hands back: the line written to [std::cout], the five
    output parameters and the returned string. *)
Record Assessment : Type := mkAssessment {
  printedRiskScore : Z;
  heartRate : Q;
  sysBP : Q;
  diasBP : Q;
  cholesterol : Q;
  ecg : Q;
  message : string
}.

(** Lines 138-143: the final risk assessment. *)
Definition riskMessage (riskScore : Z) : string :=
  if riskScore >=? 18 then "High risk of heart disease."
  else if riskScore >=? 10 then "Moderate risk of heart disease."
  else "Low risk of heart disease. You are healthy!".

Section WithLibrary.
Variable L : StdRandom.

(** One block of five assignments, each from a fresh temporary
    generator, in source order. *)
Definition simulate (hr sys dias chol e : Q * Q) (dev : device L)
  : option (Q * Q * Q * Q * Q * device L) :=
  '(heartRate, dev) ← RandomNumberGenerator.sample L (fst hr) (snd hr) dev;
  '(sysBP, dev) ← RandomNumberGenerator.sample L (fst sys) (snd sys) dev;
  '(diasBP, dev) ← RandomNumberGenerator.sample L (fst dias) (snd dias) dev;
  '(cholesterol, dev) ← RandomNumberGenerator.sample L (fst chol) (snd chol) dev;
  '(ecg, dev) ← RandomNumberGenerator.sample L (fst e) (snd e) dev;
  Some (heartRate, sysBP, diasBP, cholesterol, ecg, dev).

(** Lines 114-135: the ranges chosen by the score. *)
Definition simulateSensors (riskScore : Z) (dev : device L)
  : option (Q * Q * Q * Q * Q * device L) :=
  if riskScore <? 10 then
    simulate (60, 80)%Q (110, 120)%Q (70, 80)%Q (150, 200)%Q
             (0.05, 0.15)%Q dev
  else if riskScore <? 18 then
    simulate (80, 95)%Q (120, 135)%Q (80, 90)%Q (200, 240)%Q
             (0.02, 0.18)%Q dev
  else
    simulate (95, 120)%Q (135, 160)%Q (90, 110)%Q (240, 300)%Q
             (-0.1, 0.3)%Q dev.

Definition assessHeartHealth (family : FamilyHealth.t) (dev : device L)
  : option (Assessment * device L) :=
  riskScore ← riskScore family;
  '(heartRate, sysBP, diasBP, cholesterol, ecg, dev) ←
    simulateSensors riskScore dev;
  Some (mkAssessment riskScore heartRate sysBP diasBP cholesterol ecg
                     (riskMessage riskScore), dev).

End WithLibrary.

End Calculations.
Import Calculations.

(** ** The specification's tables

    These definitions follow the words of the specification (sections 3,
    4.2 and 4.3), not the code: they are what the code is compared with. *)

Module Spec.

(** A row of the scoring table: a rule on the profile and the points it
    adds. "Each rule adds to a running total; all rules always apply." *)
Definition Rule : Type := (FamilyHealth.t -> bool) * Z.

Definition among (x : Z) (xs : list Z) : bool := bool_decide (x ∈ xs).

(** Entry [i] of the family-disease history is present. *)
Definition present (p : FamilyHealth.t) (i : nat) : bool :=
  bool_decide (familyDiseasesHistory p !! i = Some true).

Definition ageRules : list Rule :=
  [ (fun p => among (ageGroup p) [1; 2], 1);
    (fun p => among (ageGroup p) [3; 4], 2);
    (fun p => among (ageGroup p) [5; 6], 3) ].

Definition sexAgeRules : list Rule :=
  [ (fun p => negb (gender p) && bool_decide (ageGroup p <= 3), 1);
    (fun p => negb (gender p) && bool_decide (ageGroup p > 3), 3);
    (fun p => gender p && bool_decide (ageGroup p <= 3), 2);
    (fun p => gender p && bool_decide (ageGroup p > 3), 3) ].

Definition sleepRules : list Rule :=
  [ (fun p => among (sleepHours p) [1; 5], 3);
    (fun p => among (sleepHours p) [2], 2);
    (fun p => among (sleepHours p) [3; 4], 1) ].

Definition exerciseRules : list Rule :=
  [ (fun p => among (exerciseFrequency p) [1], 3);
    (fun p => among (exerciseFrequency p) [2], 2);
    (fun p => among (exerciseFrequency p) [3; 4], 1) ].

Definition familyRules : list Rule :=
  [ (fun p => present p 0, 2);
    (fun p => present p 1, 1);
    (fun p => present p 2, 2);
    (fun p => present p 3, 2) ].

Definition dietRules : list Rule :=
  [ (fun p => among (dietType p) [4], 3);
    (fun p => among (dietType p) [1; 2; 3; 6], 1);
    (fun p => among (dietType p) [5], 2) ].

Definition smokingRules : list Rule :=
  [ (fun p => isSmoker p, 3);
    (fun p => negb (isSmoker p), 1) ].

Definition scoringTable : list Rule :=
  ageRules ++ sexAgeRules ++ sleepRules ++ exerciseRules
  ++ familyRules ++ dietRules ++ smokingRules.

(** The points of the rules of [rules] that match [p]. *)
Fixpoint points (rules : list Rule) (p : FamilyHealth.t) : Z :=
  match rules with
  | [] => 0
  | (applies, contribution) :: rest =>
      (if applies p then contribution else 0) + points rest p
  end.

Definition tableScore (p : FamilyHealth.t) : Z := points scoringTable p.

(** Every ordinal field holds a value of its declared domain, and the
    history has its four entries. *)
Definition inDomain (p : FamilyHealth.t) : Prop :=
  1 <= ageGroup p <= 6 /\
  1 <= sleepHours p <= 5 /\
  1 <= exerciseFrequency p <= 4 /\
  1 <= dietType p <= 6 /\
  FamilyHealth.wf p.

Inductive Tier : Type := Low | Moderate | High.

Definition tierOf (riskScore : Z) : Tier :=
  if bool_decide (riskScore < 10) then Low
  else if bool_decide (10 <= riskScore < 18) then Moderate
  else High.

Definition tierMessage (t : Tier) : string :=
  match t with
  | Low => "Low risk of heart disease. You are healthy!"
  | Moderate => "Moderate risk of heart disease."
  | High => "High risk of heart disease."
  end.

(** Per-tier sampling ranges, as closed intervals (low, high). *)
Record Ranges : Type := mkRanges {
  heartRateRange : Q * Q;
  systolicRange : Q * Q;
  diastolicRange : Q * Q;
  cholesterolRange : Q * Q;
  ecgRange : Q * Q
}.

Definition tierRanges (t : Tier) : Ranges :=
  match t with
  | Low =>
      mkRanges (60, 80)%Q (110, 120)%Q (70, 80)%Q (150, 200)%Q (0.05, 0.15)%Q
  | Moderate =>
      mkRanges (80, 95)%Q (120, 135)%Q (80, 90)%Q (200, 240)%Q (0.02, 0.18)%Q
  | High =>
      mkRanges (95, 120)%Q (135, 160)%Q (90, 110)%Q (240, 300)%Q (-0.1, 0.3)%Q
  end.

Definition within (x : Q) (range : Q * Q) : Prop :=
  (fst range <= x <= snd range)%Q.

End Spec.

(** ** A concrete standard library and concrete profiles

    [releaseLibrary] behaves as the usual release builds of the C++ standard
    libraries do: the distribution stores its two bounds as given, and a
    draw is [canonical * (b - a) + a] with [canonical] in [[0, 1)]. The
    engine is a small linear congruential generator standing in for the
    Mersenne twister; the device hands out successive seeds. *)

Module Release.

Definition modulus : Z := 2 ^ 32.

Definition next (state : Z) : Z := (1664525 * state + 1013904223) mod modulus.

Definition canonical (state : Z) : Q := (state mod modulus) # Z.to_pos modulus.

Definition scaled (d : Q * Q) (state : Z) : Q * Z :=
  let '(a, b) := d in
  ((canonical (next state) * (b - a) + a)%Q, next state).

Definition library : StdRandom :=
  {| device := Z;
     random_device := fun dev => (next (dev + 12345), dev + 1);
     engine := Z;
     mt19937 := fun seed => seed;
     distribution := Q * Q;
     uniform_real_distribution := fun a b => Some (a, b);
     draw := scaled |}.

End Release.

(** A library built with assertions on: the distribution's constructor
    refuses [b < a]. *)
Module Asserting.

Definition library : StdRandom :=
  {| device := Z;
     random_device := random_device Release.library;
     engine := Z;
     mt19937 := fun seed => seed;
     distribution := Q * Q;
     uniform_real_distribution :=
       fun a b => if Qle_bool a b then Some (a, b) else None;
     draw := Release.scaled |}.

End Asserting.

(** Section 8, scenario 7: ageGroup 1, female, sleep 3, exercise 3, no family
    disease, balanced diet, non-smoker. *)
Definition lowRiskProfile : FamilyHealth.t :=
  FamilyHealth.mk 1 false 3 3 6 false
    (familyDiseases (FamilyHealth.FamilyHealth (FamilyHealth.mk 0 false 0 0 0 false [] [])))
    [false; false; false; false].

(** Section 8, scenario 8: ageGroup 6, male, sleep 1, exercise 1, all four
    diseases, western diet, smoker. *)
Definition highRiskProfile : FamilyHealth.t :=
  FamilyHealth.mk 6 true 1 1 4 true
    (familyDiseases lowRiskProfile)
    [true; true; true; true].

(** A profile whose four ordinal fields are all outside their domains. *)
Definition outOfDomainProfile : FamilyHealth.t :=
  FamilyHealth.mk 7 false 0 9 (-2) false
    (familyDiseases lowRiskProfile)
    [false; false; false; false].

(** The same object with all four history entries set to [value], through
    the setter, one call per index. *)
Definition setAllFamilyDiseases (value : bool) (f : FamilyHealth.t)
  : FamilyHealth.t :=
  setFamilyDiseaseHistory 3 value
    (setFamilyDiseaseHistory 2 value
       (setFamilyDiseaseHistory 1 value
          (setFamilyDiseaseHistory 0 value f))).

(** Splits on [x] being one of the listed values, evaluating the goal in each
    case; the context must exclude every other value. *)
Ltac enumerate x values :=
  lazymatch values with
  | @nil _ => exfalso; lia
  | @cons _ ?v ?rest =>
      destruct (decide (x = v)) as [-> | ?]; [done | enumerate x rest]
  end.

(** ** FamilyHealth: the remaining members, and sequences of calls *)

(** One call of a setter of the class. *)
Inductive SetterCall : Type :=
| SetAgeGroup (value : Z)
| SetGender (value : bool)
| SetSleepHours (value : Z)
| SetExerciseFrequency (value : Z)
| SetDietType (value : Z)
| SetIsSmoker (value : bool)
| SetFamilyDiseaseHistory (index : Z) (value : bool).

Definition perform (c : SetterCall) (f : FamilyHealth.t) : FamilyHealth.t :=
  match c with
  | SetAgeGroup value => setAgeGroup value f
  | SetGender value => setGender value f
  | SetSleepHours value => setSleepHours value f
  | SetExerciseFrequency value => setExerciseFrequency value f
  | SetDietType value => setDietType value f
  | SetIsSmoker value => setIsSmoker value f
  | SetFamilyDiseaseHistory index value => setFamilyDiseaseHistory index value f
  end.

(** The calls of [cs] made one after the other, first to last. *)
Definition performAll (cs : list SetterCall) (f : FamilyHealth.t)
  : FamilyHealth.t :=
  foldl (fun f c => perform c f) f cs.

(** The four labels the constructor stores. *)
Definition diseaseLabels : list string :=
  [ "Heart attack or coronary artery disease";
    "Diabetes (Type 2)";
    "High cholesterol";
    "High blood pressure" ]%string.

(** [v[i] = x] on a [std::vector]: an unchecked write, without a defined
    result outside the vector. *)
Definition vector_assign {A : Type} (v : list A) (i : nat) (x : A)
  : option (list A) :=
  if decide (i < length v)%nat then Some (<[i := x]> v) else None.

(** [std::cin >> n] for an [int n], followed by [std::cin.ignore()]: the
    input is the sequence of integers the extractions yield, one per
    question; [None] is an input that ends early, where the model stops. *)
Definition cin_int (input : list Z) : option (Z * list Z) :=
  match input with
  | [] => None
  | n :: rest => Some (n, rest)
  end.

(** [FamilyHealth::gatherInfo] (FamilyHealth.cpp), the prompts written to
    [std::cout] left out. *)
Definition gatherInfo (f : FamilyHealth.t) (input : list Z)
  : option (FamilyHealth.t * list Z) :=
  '(ageGroup, input) ← cin_int input;
  '(recordedGender, input) ← cin_int input;
  let gender := recordedGender =? 2 in
  '(sleepHours, input) ← cin_int input;
  '(exerciseFrequency, input) ← cin_int input;
  '(recordedCAD, input) ← cin_int input;
  history ← vector_assign (familyDiseasesHistory f) 0 (recordedCAD =? 1);
  '(recordedDiabetes, input) ← cin_int input;
  history ← vector_assign history 1 (recordedDiabetes =? 1);
  '(recordedCholesterol, input) ← cin_int input;
  history ← vector_assign history 2 (recordedCholesterol =? 1);
  '(recordedBP, input) ← cin_int input;
  history ← vector_assign history 3 (recordedBP =? 1);
  '(dietType, input) ← cin_int input;
  '(recordedSmoking, input) ← cin_int input;
  let isSmoker := recordedSmoking =? 1 in
  Some (FamilyHealth.mk ageGroup gender sleepHours exerciseFrequency dietType
          isSmoker (familyDiseases f) history, input).

(** ** SurveyFormScreen::submitSurvey (SurveyFormScreen.cpp)

    The part that fills the [familyData] member: [currentIndex i] is
    [questionFields[i]->currentIndex()], the position of the chosen option
    of question [i], or -1 without a choice. *)

(** The number of options the form offers for each of its seven questions. *)
Definition optionCount (question : nat) : Z :=
  match question with
  | 0%nat => 6
  | 1%nat => 2
  | 2%nat => 5
  | 3%nat => 4
  | 4%nat => 2
  | 5%nat => 6
  | 6%nat => 2
  | _ => 0
  end.

Definition submitSurvey (currentIndex : nat -> Z) (familyData : FamilyHealth.t)
  : FamilyHealth.t :=
  let familyData := setAgeGroup (currentIndex 0%nat + 1) familyData in
  let familyData := setGender (currentIndex 1%nat =? 1) familyData in
  let familyData := setSleepHours (currentIndex 2%nat + 1) familyData in
  let familyData := setExerciseFrequency (currentIndex 3%nat + 1) familyData in
  let familyData := setDietType (currentIndex 5%nat + 1) familyData in
  let familyData := setIsSmoker (currentIndex 6%nat =? 1) familyData in
  let familyData := setFamilyDiseaseHistory 0 (currentIndex 4%nat =? 1) familyData in
  familyData.

(** Every question answered with one of its options. *)
Definition answered (currentIndex : nat -> Z) : Prop :=
  forall question : nat,
    (question < 7)%nat -> 0 <= currentIndex question < optionCount question.

(** The form submitted several times over, oldest answers first: the
    [familyData] member lives as long as the form does. *)
Definition submitAll (forms : list (nat -> Z)) (familyData : FamilyHealth.t)
  : FamilyHealth.t :=
  foldl (fun f currentIndex => submitSurvey currentIndex f) familyData forms.

(** The form as it opens: the first option of every question. *)
Definition firstOptions : nat -> Z := fun _ => 0.

From Stdlib Require Qround.
From stdpp Require pretty.

(** ** The QString and std::string operations the screens use

    A [QString] is a [string] here: a sequence of 8-bit characters standing
    for the [QChar]s below 256. The functions follow the library's
    documentation; they belong to Qt and the standard library, not to the
    repository. *)

Module Text.

(** [QChar::isSpace] below 256: tab to carriage return, space, next line
    (0x85) and the no-break space (0xA0). *)
Definition isSpace (c : Ascii.ascii) : bool :=
  let n := Ascii.nat_of_ascii c in
  ((9 <=? n) && (n <=? 13))%nat || (n =? 32)%nat || (n =? 133)%nat
  || (n =? 160)%nat.

Fixpoint trimmedLeft (s : string) : string :=
  match s with
  | EmptyString => EmptyString
  | String c rest => if isSpace c then trimmedLeft rest else s
  end.

Fixpoint trimmedRight (s : string) : string :=
  match s with
  | EmptyString => EmptyString
  | String c rest =>
      match trimmedRight rest with
      | EmptyString => if isSpace c then EmptyString else String c EmptyString
      | kept => String c kept
      end
  end.

(** [QString::trimmed]: the whitespace at both ends removed. *)
Definition trimmed (s : string) : string := trimmedRight (trimmedLeft s).

(** [QString::isEmpty]. *)
Definition isEmpty (s : string) : bool :=
  match s with
  | EmptyString => true
  | String _ _ => false
  end.

(** [QString::split] at a one-character separator, empty parts kept: a
    string without the separator is its own single part, the empty string
    included. *)
Fixpoint split (sep : Ascii.ascii) (s : string) : list string :=
  match s with
  | EmptyString => [EmptyString]
  | String c rest =>
      if Ascii.eqb c sep then EmptyString :: split sep rest
      else match split sep rest with
           | part :: parts => String c part :: parts
           | [] => [String c EmptyString]
           end
  end.

(** [haystack.find(needle) != std::string::npos]. *)
Definition found (needle haystack : string) : bool :=
  match String.index 0 needle haystack with
  | Some _ => true
  | None => false
  end.

(** The separator of the rows of [userdata.csv]. *)
Definition comma : Ascii.ascii := Ascii.ascii_of_nat 44.



End Text.

(** The conversions between numbers and text, which belong to Qt and work
    on floating-point values: [number n] is [QString::number(n)] for an
    integer, [number_f1 x] is [QString::number(x, 'f', 1)], and [toDouble s]
    is [s.toDouble(&ok)], [None] standing for [ok == false]. *)
Record NumberText : Type := {
  number : Z -> string;
  number_f1 : Q -> string;
  toDouble : string -> option Q
}.

(** ** HeartHealthScreen (HeartHealthScreen.cpp): the data of the screen

    The widgets are left out; what is kept is what the member functions
    compute with. [m_beepTimer] records whether a beep timer exists and
    runs; [heartRateSeries] is the list of points of the chart. *)

Module HeartHealthScreen.

Record t : Type := mk {
  user : string;
  resultLabel : string;
  heartRateLabel : string;
  m_currentRisk : string;
  m_beepTimer : bool;
  heartRateSeries : list (Z * Q);
  currentX : Z;
  liveDataIndex : Z;
  liveDataLines : list string
}.

(** What surrounds the screen: the source of random seeds, and the file
    [userdata.csv] as the list of its lines ([None]: it cannot be opened
    for reading) with whether it can be opened for writing. *)
Record World (L : StdRandom) : Type := mkWorld {
  seeds : device L;
  userdata : option (list string);
  writable : bool
}.
Arguments mkWorld {L}.
Arguments seeds {L}.
Arguments userdata {L}.
Arguments writable {L}.

(** The loop of [loadDataFromCSV] over the lines of the file. *)
Fixpoint readRows (user : string) (lines : list string)
    (liveDataLines : list string) : list string :=
  match lines with
  | [] => liveDataLines
  | line :: lines =>
      let line := Text.trimmed line in
      if Text.isEmpty line then readRows user lines liveDataLines
      else
        match Text.split Text.comma line with
        | [lineUser; _; hrStr] =>
            if decide (lineUser = user)
            then readRows user lines (liveDataLines ++ [hrStr])
            else readRows user lines liveDataLines
        | _ => readRows user lines liveDataLines
        end
  end.

(** [loadDataFromCSV]: when the file cannot be opened the function returns
    after clearing [liveDataLines], before [liveDataIndex] is reset. *)
Definition loadDataFromCSV (file : option (list string)) (s : t) : t :=
  let liveDataLines := [] in
  match file with
  | None =>
      mk (user s) (resultLabel s) (heartRateLabel s) (m_currentRisk s)
         (m_beepTimer s) (heartRateSeries s) (currentX s) (liveDataIndex s)
         liveDataLines
  | Some lines =>
      mk (user s) (resultLabel s) (heartRateLabel s) (m_currentRisk s)
         (m_beepTimer s) (heartRateSeries s) (currentX s) 0
         (readRows (user s) lines liveDataLines)
  end.

(** [reset]. *)
Definition reset (s : t) : t :=
  mk (user s) "" "" "" false [] 0 0 [].

Section WithLibrary.
Variable L : StdRandom.
Variable T : NumberText.

(** The loop [for (int i = 0; i < 20; i++)] of [displayResults], entered
    with [i] and [count] iterations to go; [clock i] is what
    [QDateTime::currentSecsSinceEpoch()] returns in iteration [i]. *)
Fixpoint appendRows (count : nat) (i : Z) (clock : Z -> Z) (user : string)
    (heartRate : Q) (dev : device L) : option (list string * device L) :=
  match count with
  | O => Some ([], dev)
  | S count =>
      let now := clock i + i in
      '(simulatedHR, dev) ←
        RandomNumberGenerator.sample L (heartRate - 5)%Q (heartRate + 5)%Q dev;
      let newLine :=
        user +:+ "," +:+ number T now +:+ "," +:+ number_f1 T simulatedHR in
      '(rows, dev) ← appendRows count (i + 1) clock user heartRate dev;
      Some (newLine :: rows, dev)
  end.

(** [displayResults]. *)
Definition displayResults (clock : Z -> Z) (familyData : FamilyHealth.t)
    (s : t) (w : World L) : option (t * World L) :=
  '(a, dev) ← assessHeartHealth L familyData (seeds w);
  let assessment := message a in
  let resultLabel := assessment in
  let heartRateLabel :=
    "Heart Rate: " +:+ number_f1 T (heartRate a) +:+ " BPM" in
  let '(m_currentRisk, m_beepTimer) :=
    if Text.found "Low risk of heart disease." assessment
    then ("low", m_beepTimer s)
    else if Text.found "High risk of heart disease." assessment
    then ("high", true)
    else if Text.found "Moderate risk of heart disease." assessment
    then ("moderate", m_beepTimer s)
    else ("", m_beepTimer s) in
  '(file, dev) ←
    (if negb (Text.isEmpty (user s)) then
       let lines := default [] (userdata w) in
       if writable w then
         '(rows, dev) ← appendRows 20 0 clock (user s) (heartRate a) dev;
         Some (Some (lines ++ rows), dev)
       else Some (userdata w, dev)
     else Some (userdata w, dev));
  let s := mk (user s) resultLabel heartRateLabel m_currentRisk m_beepTimer
              (heartRateSeries s) (currentX s) (liveDataIndex s)
              (liveDataLines s) in
  Some (loadDataFromCSV file s, mkWorld dev file (writable w)).

(** [updateLiveChart], the scrolling of the chart left out. *)
Definition updateLiveChart (s : t) (dev : device L) : option (t * device L) :=
  let newHeartRate := 70%Q in
  '(newHeartRate, liveDataIndex, dev) ←
    (if negb (bool_decide (liveDataLines s = []))
        && (liveDataIndex s <? Z.of_nat (length (liveDataLines s)))
     then
       line ← (if liveDataIndex s <? 0 then None
               else liveDataLines s !! Z.to_nat (liveDataIndex s));
       let newHeartRate :=
         match toDouble T line with
         | Some val => val
         | None => newHeartRate
         end in
       Some (newHeartRate, liveDataIndex s + 1, dev)
     else
       '(x, dev) ← RandomNumberGenerator.sample L 60 100 dev;
       Some (x, liveDataIndex s, dev));
  Some (mk (user s) (resultLabel s) (heartRateLabel s) (m_currentRisk s)
           (m_beepTimer s)
           (heartRateSeries s ++ [(currentX s, newHeartRate)])
           (currentX s + 1) liveDataIndex (liveDataLines s),
        dev).

(** The live timer firing [n] times: [updateLiveChart] called [n] times in
    a row. *)
Fixpoint liveUpdates (n : nat) (s : t) (dev : device L)
  : option (t * device L) :=
  match n with
  | O => Some (s, dev)
  | S n =>
      '(s, dev) ← updateLiveChart s dev;
      liveUpdates n s dev
  end.

End WithLibrary.

End HeartHealthScreen.



(** The risk level the screen derives from a message (lines 227-252). *)
Definition riskLevel (assessment : string) : string :=
  if Text.found "Low risk of heart disease." assessment then "low"
  else if Text.found "High risk of heart disease." assessment then "high"
  else if Text.found "Moderate risk of heart disease." assessment
  then "moderate"
  else "".

(** A concrete [NumberText], for running the screens: integers in decimal,
    a heart rate rounded to the nearest tenth and written with one decimal,
    and a reader of what these two write. *)
Module Decimal.

Definition number (n : Z) : string := pretty.pretty n.

Definition number_f1 (x : Q) : string :=
  let tenths := Qround.Qfloor (x * 10 + (1 # 2))%Q in
  let magnitude := Z.abs tenths in
  (if tenths <? 0 then "-" else "")
  +:+ pretty.pretty (magnitude / 10) +:+ "." +:+ pretty.pretty (magnitude mod 10).

(** The value of a digit character, if it is one. *)
Definition digit (c : Ascii.ascii) : option Z :=
  let n := Z.of_nat (Ascii.nat_of_ascii c) in
  if (48 <=? n) && (n <=? 57) then Some (n - 48) else None.

(** Reads digits, with [scale] the power of ten to divide by once a point
    has been passed ([None] before it). *)
Fixpoint digits (s : string) (value : Z) (scale : option Z) : option Q :=
  match s with
  | EmptyString => Some (value # Z.to_pos (default 1 scale))
  | String c rest =>
      match digit c with
      | Some d => digits rest (10 * value + d) ((fun k => 10 * k) <$> scale)
      | None =>
          if Ascii.eqb c (Ascii.ascii_of_nat 46) && bool_decide (scale = None)
          then digits rest value (Some 1)
          else None
      end
  end.

Definition toDouble (s : string) : option Q :=
  match s with
  | EmptyString => None
  | String c rest =>
      if Ascii.eqb c (Ascii.ascii_of_nat 45)
      then Qopp <$> (if Text.isEmpty rest then None else digits rest 0 None)
      else digits s 0 None
  end.

Definition text : NumberText :=
  Build_NumberText number number_f1 toDouble.

End Decimal.

(** A screen of the user "ola" as it is constructed, and a world whose file
    holds one row of hers and one of another user. *)
Definition olaScreen : HeartHealthScreen.t :=
  HeartHealthScreen.mk "ola" "" "" "" false [] 0 0 [].

Definition olaWorld : HeartHealthScreen.World Release.library :=
  HeartHealthScreen.mkWorld (L := Release.library) 0
    (Some ["ola,1700000000,71.5"; "bob,1700000001,88.0"]%string) true.


(** What the chart shows for position [j] of the live data: the number of
    that line, 70 if the line is no number, and past the last line a random
    value between 60 and 100. *)
Definition shown (T : NumberText) (lines : list string) (j : nat) (v : Q)
  : Prop :=
  match lines !! j with
  | Some line => v = default 70%Q (toDouble T line)
  | None => (60 <= v <= 100)%Q
  end.

(** * Properties *)

(** ** Machine integers *)

Lemma static_cast_int_small (x : Z) :
  0 <= x < 2 ^ 31 -> static_cast_int x = x.
Proof.
  intros Hx. unfold static_cast_int.
  rewrite Z.mod_small by lia. lia.
Qed.

Lemma static_cast_int_le (x : Z) :
  0 <= x -> static_cast_int x <= x.
Proof.
  intros Hx. unfold static_cast_int.
  assert ((x + 2 ^ 31) mod 2 ^ 32 <= x + 2 ^ 31) by (apply Z.mod_le; lia).
  lia.
Qed.

(** ** FamilyHealth: the class invariant and the guarded read *)

Lemma wf_FamilyHealth (u : FamilyHealth.t) : wf (FamilyHealth.FamilyHealth u).
Proof. split; reflexivity. Qed.

Lemma wf_count (f : FamilyHealth.t) : wf f -> getFamilyHistoryCount f = 4.
Proof.
  intros [_ Hh]. unfold getFamilyHistoryCount. rewrite Hh.
  apply static_cast_int_small. lia.
Qed.

Lemma wf_setFamilyDiseaseHistory (index : Z) (value : bool) (f : FamilyHealth.t) :
  wf f -> wf (setFamilyDiseaseHistory index value f).
Proof.
  intros [Hd Hh]. unfold setFamilyDiseaseHistory.
  case_match; [| by split].
  split; simpl; [done | by rewrite length_insert].
Qed.

Lemma wf_scalar_setters (f : FamilyHealth.t) (z : Z) (b : bool) :
  wf f ->
  wf (setAgeGroup z f) /\ wf (setGender b f) /\ wf (setSleepHours z f) /\
  wf (setExerciseFrequency z f) /\ wf (setDietType z f) /\ wf (setIsSmoker b f).
Proof. intros [Hd Hh]. repeat split; assumption. Qed.

(** The guard of [hasFamilyDisease] keeps the unchecked access inside the
    vector, whatever the vector's length: the read always has a result. *)
Lemma hasFamilyDisease_total (f : FamilyHealth.t) (diseaseIndex : Z) :
  exists b, hasFamilyDisease f diseaseIndex = Some b.
Proof.
  unfold hasFamilyDisease, getFamilyHistoryCount.
  destruct (diseaseIndex <? 0) eqn:Hneg; simpl; [by eexists |].
  destruct (diseaseIndex >=? _) eqn:Hge; simpl; [by eexists |].
  apply Z.ltb_ge in Hneg.
  rewrite Z.geb_leb in Hge. apply Z.leb_gt in Hge.
  pose proof (static_cast_int_le (Z.of_nat (length (familyDiseasesHistory f)))
                ltac:(lia)) as Hle.
  destruct (lookup_lt_is_Some_2 (familyDiseasesHistory f) (Z.to_nat diseaseIndex))
    as [b Hb]; [lia | by exists b].
Qed.

Lemma hasFamilyDisease_in_range (f : FamilyHealth.t) (diseaseIndex : Z) :
  wf f -> 0 <= diseaseIndex < 4 ->
  hasFamilyDisease f diseaseIndex
  = familyDiseasesHistory f !! Z.to_nat diseaseIndex.
Proof.
  intros Hwf Hi. unfold hasFamilyDisease. rewrite (wf_count f Hwf).
  destruct (diseaseIndex <? 0) eqn:Hneg; [apply Z.ltb_lt in Hneg; lia |].
  destruct (diseaseIndex >=? 4) eqn:Hge; [| done].
  rewrite Z.geb_leb in Hge. apply Z.leb_le in Hge. lia.
Qed.

Lemma hasFamilyDisease_out_of_range (f : FamilyHealth.t) (diseaseIndex : Z) :
  diseaseIndex < 0 \/ getFamilyHistoryCount f <= diseaseIndex ->
  hasFamilyDisease f diseaseIndex = Some false.
Proof.
  intros Hi. unfold hasFamilyDisease.
  destruct (diseaseIndex <? 0) eqn:Hneg; [done |].
  destruct (diseaseIndex >=? _) eqn:Hge; [done |].
  apply Z.ltb_ge in Hneg. rewrite Z.geb_leb in Hge. apply Z.leb_gt in Hge. lia.
Qed.

(** ** The seven blocks of the score *)

Lemma ageBased_bounds (f : FamilyHealth.t) : 1 <= ageBased f <= 3.
Proof. unfold ageBased. repeat case_match; lia. Qed.

Lemma genderBased_bounds (f : FamilyHealth.t) : 1 <= genderBased f <= 3.
Proof. unfold genderBased. repeat case_match; lia. Qed.

Lemma sleepBased_bounds (f : FamilyHealth.t) : 1 <= sleepBased f <= 3.
Proof. unfold sleepBased. repeat case_match; lia. Qed.

Lemma exerciseBased_bounds (f : FamilyHealth.t) : 1 <= exerciseBased f <= 3.
Proof. unfold exerciseBased. repeat case_match; lia. Qed.

Lemma dietBased_bounds (f : FamilyHealth.t) : 0 <= dietBased f <= 3.
Proof. unfold dietBased. repeat case_match; lia. Qed.

Lemma smokingBased_bounds (f : FamilyHealth.t) : 1 <= smokingBased f <= 3.
Proof. unfold smokingBased. case_match; lia. Qed.

Lemma familyDiseaseBased_bounds (f : FamilyHealth.t) :
  exists fd, familyDiseaseBased f = Some fd /\ 0 <= fd <= 7.
Proof.
  unfold familyDiseaseBased.
  destruct (hasFamilyDisease_total f 0) as [d0 ->].
  destruct (hasFamilyDisease_total f 1) as [d1 ->].
  destruct (hasFamilyDisease_total f 2) as [d2 ->].
  destruct (hasFamilyDisease_total f 3) as [d3 ->].
  simpl. eexists; split; [reflexivity |].
  destruct d0, d1, d2, d3; lia.
Qed.

(** The score is the sum of the seven blocks; it exists for every object. *)
Lemma riskScore_sum (f : FamilyHealth.t) :
  exists fd,
    familyDiseaseBased f = Some fd /\
    riskScore f
    = Some (ageBased f + genderBased f + sleepBased f + exerciseBased f
            + fd + dietBased f + smokingBased f).
Proof.
  destruct (familyDiseaseBased_bounds f) as (fd & Hfd & _).
  exists fd. split; [done |].
  unfold riskScore. rewrite Hfd. simpl. f_equal.
Qed.

Lemma riskScore_total (f : FamilyHealth.t) : exists s, riskScore f = Some s.
Proof. destruct (riskScore_sum f) as (fd & _ & ->). by eexists. Qed.

Lemma riskScore_bounds (f : FamilyHealth.t) (s : Z) :
  riskScore f = Some s -> 5 <= s <= 25.
Proof.
  destruct (riskScore_sum f) as (fd & Hfd & ->). intros [= <-].
  destruct (familyDiseaseBased_bounds f) as (fd' & Hfd' & Hb).
  rewrite Hfd in Hfd'. injection Hfd' as <-.
  pose proof (ageBased_bounds f). pose proof (genderBased_bounds f).
  pose proof (sleepBased_bounds f). pose proof (exerciseBased_bounds f).
  pose proof (dietBased_bounds f). pose proof (smokingBased_bounds f).
  lia.
Qed.

(** ** The code against the scoring table, factor by factor *)

Lemma points_app (r1 r2 : list Spec.Rule) (p : FamilyHealth.t) :
  Spec.points (r1 ++ r2) p = Spec.points r1 p + Spec.points r2 p.
Proof.
  induction r1 as [| [applies c] r1 IH]; simpl; [done |].
  rewrite IH. lia.
Qed.

Lemma ageBased_table (f : FamilyHealth.t) :
  1 <= ageGroup f <= 6 -> ageBased f = Spec.points Spec.ageRules f.
Proof.
  intros Hd. unfold ageBased, getAgeGroup, Spec.ageRules, Spec.points.
  enumerate (ageGroup f) [1; 2; 3; 4; 5; 6].
Qed.

Lemma genderBased_table (f : FamilyHealth.t) :
  genderBased f = Spec.points Spec.sexAgeRules f.
Proof.
  unfold genderBased, getGender, getAgeGroup, Spec.sexAgeRules, Spec.points.
  destruct (gender f); simpl;
    destruct (Z.leb_spec (ageGroup f) 3);
    repeat case_bool_decide; lia.
Qed.

Lemma sleepBased_table (f : FamilyHealth.t) :
  1 <= sleepHours f <= 5 -> sleepBased f = Spec.points Spec.sleepRules f.
Proof.
  intros Hd. unfold sleepBased, getSleepHours, Spec.sleepRules, Spec.points.
  enumerate (sleepHours f) [1; 2; 3; 4; 5].
Qed.

Lemma exerciseBased_table (f : FamilyHealth.t) :
  1 <= exerciseFrequency f <= 4 ->
  exerciseBased f = Spec.points Spec.exerciseRules f.
Proof.
  intros Hd.
  unfold exerciseBased, getExerciseFrequency, Spec.exerciseRules, Spec.points.
  enumerate (exerciseFrequency f) [1; 2; 3; 4].
Qed.

Lemma dietBased_table (f : FamilyHealth.t) :
  1 <= dietType f <= 6 -> dietBased f = Spec.points Spec.dietRules f.
Proof.
  intros Hd. unfold dietBased, getDietType, Spec.dietRules, Spec.points.
  enumerate (dietType f) [1; 2; 3; 4; 5; 6].
Qed.

Lemma smokingBased_table (f : FamilyHealth.t) :
  smokingBased f = Spec.points Spec.smokingRules f.
Proof.
  unfold smokingBased, getIsSmoker, Spec.smokingRules, Spec.points.
  by destruct (isSmoker f).
Qed.

(** A history of four entries, spelled out. *)
Lemma wf_history (f : FamilyHealth.t) :
  wf f -> exists b0 b1 b2 b3, familyDiseasesHistory f = [b0; b1; b2; b3].
Proof.
  intros [_ Hh].
  destruct (familyDiseasesHistory f) as [| b0 [| b1 [| b2 [| b3 [| ? ?]]]]];
    try discriminate.
  by exists b0, b1, b2, b3.
Qed.

Lemma familyDiseaseBased_table (f : FamilyHealth.t) :
  wf f -> familyDiseaseBased f = Some (Spec.points Spec.familyRules f).
Proof.
  intros Hwf. unfold familyDiseaseBased.
  rewrite !hasFamilyDisease_in_range by (done || lia).
  unfold Spec.familyRules, Spec.points, Spec.present.
  destruct (wf_history f Hwf) as (b0 & b1 & b2 & b3 & ->).
  by destruct b0, b1, b2, b3.
Qed.

(** Outside its domain a field matches no row of the table. *)
Lemma table_unmatched (p : FamilyHealth.t) :
  (~ 1 <= ageGroup p <= 6 -> Spec.points Spec.ageRules p = 0) /\
  (~ 1 <= sleepHours p <= 5 -> Spec.points Spec.sleepRules p = 0) /\
  (~ 1 <= exerciseFrequency p <= 4 -> Spec.points Spec.exerciseRules p = 0) /\
  (~ 1 <= dietType p <= 6 -> Spec.points Spec.dietRules p = 0).
Proof.
  unfold Spec.points, Spec.ageRules, Spec.sleepRules, Spec.exerciseRules,
    Spec.dietRules, Spec.among.
  repeat split; intros Hout; repeat case_bool_decide; try lia;
    repeat match goal with
           | H : _ ∈ _ |- _ => apply elem_of_cons in H as [H | H]
           | H : _ ∈ [] |- _ => by apply elem_of_nil in H
           end; lia.
Qed.

(** ** The sampler *)

Lemma canonical_unit (state : Z) : (0 <= Release.canonical state <= 1)%Q.
Proof.
  unfold Release.canonical, Release.modulus, Qle. simpl.
  pose proof (Z.mod_pos_bound state 4294967296 ltac:(lia)).
  change (2 ^ 32) with 4294967296. lia.
Qed.

Lemma release_sample (min max : Q) (dev : Z) :
  RandomNumberGenerator.sample Release.library min max dev
  = Some ((Release.canonical (Release.next (Release.next (dev + 12345)))
           * (max - min) + min)%Q,
          dev + 1).
Proof. reflexivity. Qed.

(** The release library honours the sampler's contract. *)
Lemma release_contract : sampler_contract Release.library.
Proof.
  intros min max dev Hle. eexists _, _. split; [apply release_sample |].
  set (u := Release.canonical _).
  destruct (canonical_unit (Release.next (Release.next (dev + 12345))))
    as [H0 H1]. fold u in H0, H1.
  assert (0 <= u * (max - min))%Q by (apply Qmult_le_0_compat; lra).
  assert (u * (max - min) <= 1 * (max - min))%Q
    by (apply Qmult_le_compat_r; lra).
  lra.
Qed.

(** With reversed bounds it still returns: a value between them. *)
Lemma release_reversed (min max : Q) (dev : Z) :
  (max < min)%Q ->
  exists v,
    RandomNumberGenerator.sample Release.library min max dev = Some (v, dev + 1)
    /\ (max <= v <= min)%Q.
Proof.
  intros Hlt. eexists. split; [apply release_sample |].
  set (u := Release.canonical _).
  destruct (canonical_unit (Release.next (Release.next (dev + 12345))))
    as [H0 H1]. fold u in H0, H1.
  assert (0 <= u * (min - max))%Q by (apply Qmult_le_0_compat; lra).
  assert (u * (min - max) <= 1 * (min - max))%Q
    by (apply Qmult_le_compat_r; lra).
  lra.
Qed.

(** An asserting library stops the construction when [max < min]. *)
Lemma asserting_reversed (min max : Q) (dev : Z) :
  (max < min)%Q ->
  RandomNumberGenerator.sample Asserting.library min max dev = None.
Proof.
  intros Hlt.
  unfold RandomNumberGenerator.sample, RandomNumberGenerator.RandomNumberGenerator.
  simpl. destruct (Qle_bool min max) eqn:Hb; [| done].
  apply Qle_bool_iff in Hb. lra.
Qed.

(** The whole of what [RandomNumberGenerator] adds to the library: a seed
    drawn from the device, and the two bounds handed on in the order given. *)
Lemma sample_unfold (L : StdRandom) (min max : Q) (dev : device L) :
  RandomNumberGenerator.sample L min max dev
  = match uniform_real_distribution L min max with
    | Some d =>
        Some (fst (draw L d (mt19937 L (fst (random_device L dev)))),
              snd (random_device L dev))
    | None => None
    end.
Proof.
  unfold RandomNumberGenerator.sample, RandomNumberGenerator.RandomNumberGenerator,
    RandomNumberGenerator.generate.
  destruct (random_device L dev) as [seed dev'].
  destruct (uniform_real_distribution L min max) as [d |]; simpl; [| done].
  by destruct (draw L d (mt19937 L seed)).
Qed.

Section Simulation.
Variable L : StdRandom.
Hypothesis contract : sampler_contract L.

Lemma simulate_within (hr sys dias chol e : Q * Q) (dev : device L) :
  (fst hr <= snd hr)%Q -> (fst sys <= snd sys)%Q ->
  (fst dias <= snd dias)%Q -> (fst chol <= snd chol)%Q ->
  (fst e <= snd e)%Q ->
  exists v1 v2 v3 v4 v5 dev',
    simulate L hr sys dias chol e dev = Some (v1, v2, v3, v4, v5, dev') /\
    Spec.within v1 hr /\ Spec.within v2 sys /\ Spec.within v3 dias /\
    Spec.within v4 chol /\ Spec.within v5 e.
Proof.
  intros H1 H2 H3 H4 H5. unfold simulate.
  destruct (contract _ _ dev H1) as (v1 & d1 & -> & ?); simpl.
  destruct (contract _ _ d1 H2) as (v2 & d2 & -> & ?); simpl.
  destruct (contract _ _ d2 H3) as (v3 & d3 & -> & ?); simpl.
  destruct (contract _ _ d3 H4) as (v4 & d4 & -> & ?); simpl.
  destruct (contract _ _ d4 H5) as (v5 & d5 & -> & ?); simpl.
  by exists v1, v2, v3, v4, v5, d5.
Qed.

End Simulation.

(** The ranges of lines 114-135 are the table's ranges of the score's tier. *)
Lemma simulateSensors_tier (L : StdRandom) (riskScore : Z) (dev : device L) :
  simulateSensors L riskScore dev
  = let r := Spec.tierRanges (Spec.tierOf riskScore) in
    simulate L (Spec.heartRateRange r) (Spec.systolicRange r)
      (Spec.diastolicRange r) (Spec.cholesterolRange r) (Spec.ecgRange r) dev.
Proof.
  unfold simulateSensors, Spec.tierOf.
  destruct (Z.ltb_spec riskScore 10), (Z.ltb_spec riskScore 18);
    repeat case_bool_decide; try lia; reflexivity.
Qed.

Lemma riskMessage_tier (riskScore : Z) :
  riskMessage riskScore = Spec.tierMessage (Spec.tierOf riskScore).
Proof.
  unfold riskMessage, Spec.tierOf. rewrite !Z.geb_leb.
  destruct (Z.leb_spec 18 riskScore), (Z.leb_spec 10 riskScore);
    repeat case_bool_decide; try lia; reflexivity.
Qed.

Lemma tierRanges_ordered (t : Spec.Tier) :
  let r := Spec.tierRanges t in
  (fst (Spec.heartRateRange r) <= snd (Spec.heartRateRange r))%Q /\
  (fst (Spec.systolicRange r) <= snd (Spec.systolicRange r))%Q /\
  (fst (Spec.diastolicRange r) <= snd (Spec.diastolicRange r))%Q /\
  (fst (Spec.cholesterolRange r) <= snd (Spec.cholesterolRange r))%Q /\
  (fst (Spec.ecgRange r) <= snd (Spec.ecgRange r))%Q.
Proof. destruct t; simpl; repeat split; apply Qle_bool_iff; reflexivity. Qed.

(** One assessment, end to end: with a sampler that keeps its contract the
    call returns; it prints the score of the profile, returns the message of
    that score and leaves each reading in the range of the score's tier. *)
Lemma assessHeartHealth_returns (L : StdRandom) (family : FamilyHealth.t)
    (dev : device L) :
  sampler_contract L ->
  exists a dev',
    assessHeartHealth L family dev = Some (a, dev') /\
    riskScore family = Some (printedRiskScore a) /\
    message a = riskMessage (printedRiskScore a) /\
    let r := Spec.tierRanges (Spec.tierOf (printedRiskScore a)) in
    Spec.within (heartRate a) (Spec.heartRateRange r) /\
    Spec.within (sysBP a) (Spec.systolicRange r) /\
    Spec.within (diasBP a) (Spec.diastolicRange r) /\
    Spec.within (cholesterol a) (Spec.cholesterolRange r) /\
    Spec.within (ecg a) (Spec.ecgRange r).
Proof.
  intros contract.
  destruct (riskScore_total family) as [s Hs].
  unfold assessHeartHealth. rewrite Hs. simpl.
  rewrite simulateSensors_tier. cbv zeta.
  destruct (tierRanges_ordered (Spec.tierOf s)) as (O1 & O2 & O3 & O4 & O5).
  destruct (simulate_within L contract _ _ _ _ _ dev O1 O2 O3 O4 O5)
    as (v1 & v2 & v3 & v4 & v5 & dev' & -> & W).
  simpl. eexists _, _. split; [reflexivity |]. simpl. auto.
Qed.

(** ** The setter *)

Lemma setAllFamilyDiseases_fields (value : bool) (f : FamilyHealth.t) :
  wf f ->
  setAllFamilyDiseases value f
  = FamilyHealth.mk (ageGroup f) (gender f) (sleepHours f)
      (exerciseFrequency f) (dietType f) (isSmoker f) (familyDiseases f)
      [value; value; value; value].
Proof.
  intros Hwf. destruct (wf_history f Hwf) as (b0 & b1 & b2 & b3 & Hh).
  destruct f; simpl in *; subst. reflexivity.
Qed.

Lemma familyDiseaseBased_all (value : bool) (f : FamilyHealth.t) :
  wf f ->
  familyDiseaseBased (setAllFamilyDiseases value f)
  = Some (if value then 7 else 0).
Proof.
  intros Hwf. rewrite setAllFamilyDiseases_fields by done.
  by destruct value.
Qed.

(** * The claims *)

(** C1. For every profile whose fields lie in their documented domains the
    score computed by [assessHeartHealth] is the sum of the per-factor
    contributions of the scoring table. The score is a function of the
    profile alone: whatever random library and device state the assessment
    runs with, the score it reports is that sum. A profile with all four
    family-disease flags set scores exactly 7 more than the same profile
    with all four cleared. *)
Theorem riskScore_is_table_sum (f : FamilyHealth.t) :
  Spec.inDomain f ->
  riskScore f = Some (Spec.tableScore f) /\
  (forall (L : StdRandom) (dev : device L) a dev',
      assessHeartHealth L f dev = Some (a, dev') ->
      printedRiskScore a = Spec.tableScore f) /\
  exists s,
    riskScore (setAllFamilyDiseases false f) = Some s /\
    riskScore (setAllFamilyDiseases true f) = Some (s + 7).
Proof.
  intros (Hage & Hsleep & Hex & Hdiet & Hwf).
  assert (Hscore : riskScore f = Some (Spec.tableScore f)).
  { destruct (riskScore_sum f) as (fd & Hfd & ->).
    rewrite familyDiseaseBased_table in Hfd by done.
    assert (fd = Spec.points Spec.familyRules f) as -> by congruence.
    unfold Spec.tableScore, Spec.scoringTable. rewrite !points_app.
    rewrite <- ageBased_table, <- genderBased_table, <- sleepBased_table,
      <- exerciseBased_table, <- dietBased_table, <- smokingBased_table by done.
    f_equal. lia. }
  split; [exact Hscore |]. split.
  - intros L dev a dev' Ha. unfold assessHeartHealth in Ha.
    rewrite Hscore in Ha. simpl in Ha.
    destruct (simulateSensors L (Spec.tableScore f) dev)
      as [[[[[[v1 v2] v3] v4] v5] d] |]; simpl in Ha; [| done].
    by injection Ha as <- _.
  - destruct (riskScore_sum (setAllFamilyDiseases false f)) as (fd0 & H0 & ->).
    destruct (riskScore_sum (setAllFamilyDiseases true f)) as (fd1 & H1 & ->).
    rewrite familyDiseaseBased_all in H0, H1 by done.
    injection H0 as <-. injection H1 as <-.
    eexists. split; [reflexivity |].
    rewrite !setAllFamilyDiseases_fields by done. f_equal.
    unfold ageBased, genderBased, sleepBased, exerciseBased, dietBased,
      smokingBased, getAgeGroup, getGender, getSleepHours,
      getExerciseFrequency, getDietType, getIsSmoker. simpl. lia.
Qed.

Lemma riskScore_is_table_sum_witness :
  Spec.inDomain highRiskProfile /\
  riskScore highRiskProfile = Some (Spec.tableScore highRiskProfile) /\
  (forall (L : StdRandom) (dev : device L) a dev',
      assessHeartHealth L highRiskProfile dev = Some (a, dev') ->
      printedRiskScore a = Spec.tableScore highRiskProfile) /\
  exists s,
    riskScore (setAllFamilyDiseases false highRiskProfile) = Some s /\
    riskScore (setAllFamilyDiseases true highRiskProfile) = Some (s + 7).
Proof.
  assert (D : Spec.inDomain highRiskProfile).
  { unfold Spec.inDomain, wf. simpl. repeat split; lia. }
  split; [exact D | exact (riskScore_is_table_sum highRiskProfile D)].
Defined.

(** C2. A score is classified Low exactly when it is below 10, Moderate
    exactly when it is at least 10 and below 18, High exactly when it is at
    least 18: the returned message is the tier's exactly in these cases, and
    the block of ranges the readings are drawn from is the tier's. In
    particular 9 is Low, 10 and 17 are Moderate, 18 is High. *)
Theorem tier_thresholds (riskScore : Z) :
  (riskMessage riskScore = "Low risk of heart disease. You are healthy!"
   <-> riskScore < 10) /\
  (riskMessage riskScore = "Moderate risk of heart disease."
   <-> 10 <= riskScore < 18) /\
  (riskMessage riskScore = "High risk of heart disease."
   <-> 18 <= riskScore) /\
  (Spec.tierOf riskScore = Spec.Low <-> riskScore < 10) /\
  (Spec.tierOf riskScore = Spec.Moderate <-> 10 <= riskScore < 18) /\
  (Spec.tierOf riskScore = Spec.High <-> 18 <= riskScore) /\
  (forall (L : StdRandom) (dev : device L),
      simulateSensors L riskScore dev
      = let r := Spec.tierRanges (Spec.tierOf riskScore) in
        simulate L (Spec.heartRateRange r) (Spec.systolicRange r)
          (Spec.diastolicRange r) (Spec.cholesterolRange r)
          (Spec.ecgRange r) dev) /\
  riskMessage 9 = Spec.tierMessage Spec.Low /\
  riskMessage 10 = Spec.tierMessage Spec.Moderate /\
  riskMessage 17 = Spec.tierMessage Spec.Moderate /\
  riskMessage 18 = Spec.tierMessage Spec.High.
Proof.
  assert (Hmsg : forall s,
             (s < 10 /\ riskMessage s = Spec.tierMessage Spec.Low) \/
             (10 <= s < 18 /\ riskMessage s = Spec.tierMessage Spec.Moderate) \/
             (18 <= s /\ riskMessage s = Spec.tierMessage Spec.High)).
  { intros s. unfold riskMessage. rewrite !Z.geb_leb.
    destruct (Z.leb_spec 18 s), (Z.leb_spec 10 s); simpl; auto with lia. }
  assert (Htier : (Spec.tierOf riskScore = Spec.Low <-> riskScore < 10) /\
                  (Spec.tierOf riskScore = Spec.Moderate <-> 10 <= riskScore < 18) /\
                  (Spec.tierOf riskScore = Spec.High <-> 18 <= riskScore)).
  { unfold Spec.tierOf. repeat case_bool_decide;
      repeat split; intros; try discriminate; try lia; reflexivity. }
  destruct Htier as (T1 & T2 & T3).
  assert (Hcode :
            (riskMessage riskScore = Spec.tierMessage Spec.Low
             <-> riskScore < 10) /\
            (riskMessage riskScore = Spec.tierMessage Spec.Moderate
             <-> 10 <= riskScore < 18) /\
            (riskMessage riskScore = Spec.tierMessage Spec.High
             <-> 18 <= riskScore)).
  { destruct (Hmsg riskScore) as [[Hs ->] | [[Hs ->] | [Hs ->]]];
      repeat split; intros; (done || lia). }
  destruct Hcode as (M1 & M2 & M3).
  split; [exact M1 |]. split; [exact M2 |]. split; [exact M3 |].
  split; [exact T1 |]. split; [exact T2 |]. split; [exact T3 |].
  split; [intros L dev; apply simulateSensors_tier |].
  repeat split; reflexivity.
Qed.

(** C3, as the specification states it, fails: with [ageGroup = 7],
    [sleepHours = 0] and [exerciseFrequency = 9], all outside their domains,
    no row of the table matches, yet the code adds 3, 1 and 1. *)
Lemma out_of_domain_not_zero :
  ~ 1 <= ageGroup outOfDomainProfile <= 6 /\
  ~ 1 <= sleepHours outOfDomainProfile <= 5 /\
  ~ 1 <= exerciseFrequency outOfDomainProfile <= 4 /\
  Spec.points Spec.ageRules outOfDomainProfile = 0 /\
  Spec.points Spec.sleepRules outOfDomainProfile = 0 /\
  Spec.points Spec.exerciseRules outOfDomainProfile = 0 /\
  ageBased outOfDomainProfile = 3 /\
  sleepBased outOfDomainProfile = 1 /\
  exerciseBased outOfDomainProfile = 1 /\
  ageBased outOfDomainProfile <> 0 /\
  riskScore outOfDomainProfile = Some 9 /\
  Spec.tableScore outOfDomainProfile = 4.
Proof. simpl. repeat split; (lia || reflexivity || discriminate). Qed.

(** C3, amended. A [dietType] outside 1..6 matches no branch and adds 0. An
    [ageGroup], [sleepHours] or [exerciseFrequency] outside its domain falls
    into the final [else] of its chain and adds 3, 1 and 1. The engine does
    not stop on such input: every profile has a score. *)
Theorem out_of_domain_contributions (f : FamilyHealth.t) :
  (~ 1 <= dietType f <= 6 -> dietBased f = 0) /\
  (~ 1 <= ageGroup f <= 6 -> ageBased f = 3) /\
  (~ 1 <= sleepHours f <= 5 -> sleepBased f = 1) /\
  (~ 1 <= exerciseFrequency f <= 4 -> exerciseBased f = 1) /\
  exists s, riskScore f = Some s.
Proof.
  unfold dietBased, ageBased, sleepBased, exerciseBased, getDietType,
    getAgeGroup, getSleepHours, getExerciseFrequency.
  repeat split; try apply riskScore_total; intros Hout;
    repeat match goal with
           | |- context [?a =? ?b] => destruct (Z.eqb_spec a b); simpl
           end; lia.
Qed.

Lemma out_of_domain_contributions_witness :
  ~ 1 <= dietType outOfDomainProfile <= 6 /\
  dietBased outOfDomainProfile = 0 /\
  ageBased outOfDomainProfile = 3 /\
  sleepBased outOfDomainProfile = 1 /\
  exerciseBased outOfDomainProfile = 1 /\
  exists s, riskScore outOfDomainProfile = Some s.
Proof.
  destruct (out_of_domain_contributions outOfDomainProfile)
    as (Hdiet & Hage & Hsleep & Hex & Hs).
  split; [simpl; lia |].
  split; [apply Hdiet; simpl; lia |].
  split; [apply Hage; simpl; lia |].
  split; [apply Hsleep; simpl; lia |].
  split; [apply Hex; simpl; lia | exact Hs].
Defined.

(** C4, as the specification states it, fails: the profile scores
    3+3+3+3+(2+1+2+2)+3+3 = 25, not 27. *)
Lemma high_risk_scenario_scores_25 :
  riskScore highRiskProfile = Some 25 /\
  riskScore highRiskProfile <> Some 27 /\
  Spec.tableScore highRiskProfile = 25.
Proof. repeat split; (reflexivity || discriminate). Qed.

(** C4, amended. For the profile ageGroup 6, male, sleep 1, exercise 1, all
    four family diseases, diet 4, smoker, the assessment computes the score
    25, returns the High message, and its ecg reading lies in [-0.1, 0.3]. *)
Theorem high_risk_scenario (L : StdRandom) (dev : device L) :
  sampler_contract L ->
  exists a dev',
    assessHeartHealth L highRiskProfile dev = Some (a, dev') /\
    printedRiskScore a = 25 /\
    Spec.tierOf (printedRiskScore a) = Spec.High /\
    message a = "High risk of heart disease." /\
    (-0.1 <= ecg a <= 0.3)%Q.
Proof.
  intros contract.
  destruct (assessHeartHealth_returns L highRiskProfile dev contract)
    as (a & dev' & Ha & Hs & Hm & W).
  assert (Hp : printedRiskScore a = 25).
  { change (riskScore highRiskProfile) with (Some 25) in Hs. congruence. }
  exists a, dev'. rewrite Hm. rewrite Hp in W |- *.
  split; [exact Ha |]. repeat split; try reflexivity; apply W.
Qed.

Lemma high_risk_scenario_witness :
  sampler_contract Release.library /\
  exists a dev',
    assessHeartHealth Release.library highRiskProfile 0 = Some (a, dev') /\
    printedRiskScore a = 25 /\
    Spec.tierOf (printedRiskScore a) = Spec.High /\
    message a = "High risk of heart disease." /\
    (-0.1 <= ecg a <= 0.3)%Q.
Proof.
  split; [exact release_contract |].
  exact (high_risk_scenario Release.library 0 release_contract).
Defined.

(** C5. With a sampler that returns a value in [[min, max]] whenever
    [min <= max], every assessment of every profile returns, and each of its
    five readings lies in the closed interval of the tier of the score. *)
Theorem readings_within_tier_ranges (L : StdRandom) (family : FamilyHealth.t)
    (dev : device L) :
  sampler_contract L ->
  exists a dev',
    assessHeartHealth L family dev = Some (a, dev') /\
    riskScore family = Some (printedRiskScore a) /\
    (printedRiskScore a < 10 ->
       (60 <= heartRate a <= 80)%Q /\ (110 <= sysBP a <= 120)%Q /\
       (70 <= diasBP a <= 80)%Q /\ (150 <= cholesterol a <= 200)%Q /\
       (0.05 <= ecg a <= 0.15)%Q) /\
    (10 <= printedRiskScore a < 18 ->
       (80 <= heartRate a <= 95)%Q /\ (120 <= sysBP a <= 135)%Q /\
       (80 <= diasBP a <= 90)%Q /\ (200 <= cholesterol a <= 240)%Q /\
       (0.02 <= ecg a <= 0.18)%Q) /\
    (18 <= printedRiskScore a ->
       (95 <= heartRate a <= 120)%Q /\ (135 <= sysBP a <= 160)%Q /\
       (90 <= diasBP a <= 110)%Q /\ (240 <= cholesterol a <= 300)%Q /\
       (-0.1 <= ecg a <= 0.3)%Q).
Proof.
  intros contract.
  destruct (assessHeartHealth_returns L family dev contract)
    as (a & dev' & Ha & Hs & _ & W).
  exists a, dev'. split; [exact Ha |]. split; [exact Hs |].
  unfold Spec.tierOf in W.
  split; [| split]; intros Ht; repeat case_bool_decide; try lia; exact W.
Qed.

Lemma readings_within_tier_ranges_witness :
  sampler_contract Release.library /\
  exists a dev',
    assessHeartHealth Release.library lowRiskProfile 0 = Some (a, dev') /\
    printedRiskScore a = 6 /\
    (60 <= heartRate a <= 80)%Q /\ (110 <= sysBP a <= 120)%Q /\
    (70 <= diasBP a <= 80)%Q /\ (150 <= cholesterol a <= 200)%Q /\
    (0.05 <= ecg a <= 0.15)%Q.
Proof.
  split; [exact release_contract |].
  destruct (readings_within_tier_ranges Release.library lowRiskProfile 0
              release_contract) as (a & dev' & Ha & Hs & Hlow & _).
  assert (Hp : printedRiskScore a = 6).
  { change (riskScore lowRiskProfile) with (Some 6) in Hs. congruence. }
  exists a, dev'. split; [exact Ha |]. split; [exact Hp |].
  apply Hlow. rewrite Hp. lia.
Defined.

(** C6. The message an assessment returns is the literal text of the tier of
    the profile's score, and so one of exactly three strings: the Low text
    when the score is below 10, the Moderate text from 10 to 17, the High
    text from 18 on. *)
Theorem message_is_tier_literal (L : StdRandom) (family : FamilyHealth.t)
    (dev : device L) :
  sampler_contract L ->
  exists a dev',
    assessHeartHealth L family dev = Some (a, dev') /\
    riskScore family = Some (printedRiskScore a) /\
    message a = Spec.tierMessage (Spec.tierOf (printedRiskScore a)) /\
    ((printedRiskScore a < 10 /\
      message a = "Low risk of heart disease. You are healthy!") \/
     (10 <= printedRiskScore a < 18 /\
      message a = "Moderate risk of heart disease.") \/
     (18 <= printedRiskScore a /\
      message a = "High risk of heart disease.")).
Proof.
  intros contract.
  destruct (assessHeartHealth_returns L family dev contract)
    as (a & dev' & Ha & Hs & Hm & _).
  exists a, dev'. split; [exact Ha |]. split; [exact Hs |].
  rewrite Hm, riskMessage_tier. split; [reflexivity |].
  unfold Spec.tierOf. repeat case_bool_decide; simpl; auto with lia.
Qed.

Lemma message_is_tier_literal_witness :
  sampler_contract Release.library /\
  exists a dev',
    assessHeartHealth Release.library lowRiskProfile 0 = Some (a, dev') /\
    message a = "Low risk of heart disease. You are healthy!".
Proof.
  split; [exact release_contract |].
  destruct (message_is_tier_literal Release.library lowRiskProfile 0
              release_contract) as (a & dev' & Ha & Hs & Hm & _).
  assert (Hp : printedRiskScore a = 6).
  { change (riskScore lowRiskProfile) with (Some 6) in Hs. congruence. }
  exists a, dev'. split; [exact Ha |]. by rewrite Hm, Hp.
Defined.

(** C7. On an object with its four history entries, [hasFamilyDisease] at
    an index below 0 or at least 4 (5, say) returns false; it has a result,
    the vector is not touched. *)
Theorem hasFamilyDisease_out_of_range_false (f : FamilyHealth.t)
    (diseaseIndex : Z) :
  wf f ->
  diseaseIndex < 0 \/ 4 <= diseaseIndex ->
  hasFamilyDisease f diseaseIndex = Some false.
Proof.
  intros Hwf Hi. apply hasFamilyDisease_out_of_range.
  by rewrite (wf_count f Hwf).
Qed.

Lemma hasFamilyDisease_out_of_range_false_witness :
  wf highRiskProfile /\ hasFamilyDisease highRiskProfile 5 = Some false.
Proof.
  assert (Hwf : wf highRiskProfile) by (split; reflexivity).
  split; [exact Hwf |].
  apply (hasFamilyDisease_out_of_range_false highRiskProfile 5 Hwf). lia.
Defined.

(** C8, as the specification states it, fails: with the bounds 5 and 1 and a
    standard library that does not validate them, the constructor builds a
    generator holding the bounds as given and the draw returns a value; no
    error is raised by [RandomNumberGenerator]. *)
Lemma reversed_bounds_accepted :
  (1 < 5)%Q /\
  RandomNumberGenerator.RandomNumberGenerator Release.library 5 1 0
  = Some (RandomNumberGenerator.mk Release.library
            (Release.next 12345) (5, 1)%Q, 1) /\
  RandomNumberGenerator.sample Release.library 5 1 0 <> None /\
  ~ (forall (L : StdRandom) (min max : Q) (dev : device L),
        (max < min)%Q -> RandomNumberGenerator.sample L min max dev = None).
Proof.
  split; [reflexivity |]. split; [reflexivity |]. split; [discriminate |].
  intros Hclaim.
  specialize (Hclaim Release.library 5%Q 1%Q 0 eq_refl). discriminate.
Qed.

(** C8, amended. [RandomNumberGenerator] makes no check of its own on the
    bounds. With [min > max] the construction and the draw fail exactly when
    the standard library's distribution refuses the bounds, which reach it
    in the order given; a generator that is built holds the distribution the
    library made of them. With a library that does not validate, the draw
    returns a value between [max] and [min]; with an asserting library the
    construction stops. *)
Theorem reversed_bounds_left_to_library (min max : Q) :
  (max < min)%Q ->
  (forall (L : StdRandom) (dev : device L),
      RandomNumberGenerator.sample L min max dev = None
      <-> uniform_real_distribution L min max = None) /\
  (forall (L : StdRandom) (dev : device L) g dev',
      RandomNumberGenerator.RandomNumberGenerator L min max dev = Some (g, dev')
      -> uniform_real_distribution L min max
         = Some (RandomNumberGenerator.dist L g)) /\
  (forall dev : Z,
      exists v,
        RandomNumberGenerator.sample Release.library min max dev
        = Some (v, dev + 1)
        /\ (max <= v <= min)%Q) /\
  (forall dev : Z,
      RandomNumberGenerator.sample Asserting.library min max dev = None).
Proof.
  intros Hlt. split; [| split; [| split]].
  - intros L dev. rewrite sample_unfold.
    destruct (uniform_real_distribution L min max); split; done.
  - intros L dev g dev'. unfold RandomNumberGenerator.RandomNumberGenerator.
    destruct (random_device L dev) as [seed d1].
    destruct (uniform_real_distribution L min max) as [d |]; simpl; [| done].
    by intros [= <- _].
  - intros dev. by apply release_reversed.
  - intros dev. by apply asserting_reversed.
Qed.

Lemma reversed_bounds_left_to_library_witness :
  (1 < 5)%Q /\
  exists v,
    RandomNumberGenerator.sample Release.library 5 1 0 = Some (v, 1)
    /\ (1 <= v <= 5)%Q.
Proof.
  split; [reflexivity |].
  exact (proj1 (proj2 (proj2
           (reversed_bounds_left_to_library 5%Q 1%Q eq_refl))) 0).
Defined.

(** C9. For every object, whatever integers its ordinal fields hold, the
    age, sex-and-age, sleep, exercise and smoking blocks each add between 1
    and 3, the family history between 0 and 7, the diet between 0 and 3, and
    the score lies between 5 and 25. *)
Theorem riskScore_range (f : FamilyHealth.t) :
  1 <= ageBased f <= 3 /\
  1 <= genderBased f <= 3 /\
  1 <= sleepBased f <= 3 /\
  1 <= exerciseBased f <= 3 /\
  1 <= smokingBased f <= 3 /\
  0 <= dietBased f <= 3 /\
  exists fd s,
    familyDiseaseBased f = Some fd /\ 0 <= fd <= 7 /\
    riskScore f = Some s /\ 5 <= s <= 25.
Proof.
  split; [apply ageBased_bounds |]. split; [apply genderBased_bounds |].
  split; [apply sleepBased_bounds |]. split; [apply exerciseBased_bounds |].
  split; [apply smokingBased_bounds |]. split; [apply dietBased_bounds |].
  destruct (familyDiseaseBased_bounds f) as (fd & Hfd & Hb).
  destruct (riskScore_total f) as [s Hs].
  exists fd, s. split; [done |]. split; [done |]. split; [done |].
  by apply (riskScore_bounds f).
Qed.

(** C10. On an object with its four history entries,
    [setFamilyDiseaseHistory] at an index below 0 or at least 4 changes
    nothing; at an index from 0 to 3 it stores the value in that entry of
    the history and leaves the other entries and all other members as they
    were. *)
Theorem setFamilyDiseaseHistory_frame (f : FamilyHealth.t) (index : Z)
    (value : bool) :
  wf f ->
  (index < 0 \/ 4 <= index -> setFamilyDiseaseHistory index value f = f) /\
  (0 <= index < 4 ->
   let f' := setFamilyDiseaseHistory index value f in
   ageGroup f' = ageGroup f /\ gender f' = gender f /\
   sleepHours f' = sleepHours f /\
   exerciseFrequency f' = exerciseFrequency f /\
   dietType f' = dietType f /\ isSmoker f' = isSmoker f /\
   familyDiseases f' = familyDiseases f /\
   length (familyDiseasesHistory f') = length (familyDiseasesHistory f) /\
   familyDiseasesHistory f' !! Z.to_nat index = Some value /\
   forall j : nat,
     j <> Z.to_nat index ->
     familyDiseasesHistory f' !! j = familyDiseasesHistory f !! j).
Proof.
  intros Hwf. pose proof Hwf as [_ Hlen].
  unfold setFamilyDiseaseHistory. rewrite Hlen.
  rewrite static_cast_int_small by (simpl; lia).
  rewrite Z.geb_leb.
  destruct (Z.leb_spec 0 index), (Z.ltb_spec index (Z.of_nat 4)); simpl;
    (split; [intros ?; try reflexivity; lia | intros ?; try lia]).
  repeat split; try reflexivity.
  - by rewrite length_insert.
  - apply list_lookup_insert_eq. rewrite Hlen. lia.
  - intros j Hj. by apply list_lookup_insert_ne.
Qed.

Lemma setFamilyDiseaseHistory_frame_witness :
  wf lowRiskProfile /\
  setFamilyDiseaseHistory 5 true lowRiskProfile = lowRiskProfile /\
  setFamilyDiseaseHistory (-1) true lowRiskProfile = lowRiskProfile /\
  familyDiseasesHistory (setFamilyDiseaseHistory 2 true lowRiskProfile)
    !! Z.to_nat 2 = Some true.
Proof.
  assert (Hwf : wf lowRiskProfile) by (split; reflexivity).
  split; [exact Hwf |].
  split; [apply (setFamilyDiseaseHistory_frame lowRiskProfile 5 true Hwf); lia |].
  split; [apply (setFamilyDiseaseHistory_frame lowRiskProfile (-1) true Hwf); lia |].
  apply (setFamilyDiseaseHistory_frame lowRiskProfile 2 true Hwf). lia.
Defined.

(** * Further properties of the code *)

(** ** FamilyHealth *)

Lemma setFamilyDiseaseHistory_count (index : Z) (value : bool)
    (f : FamilyHealth.t) :
  getFamilyHistoryCount (setFamilyDiseaseHistory index value f)
  = getFamilyHistoryCount f.
Proof.
  unfold setFamilyDiseaseHistory, getFamilyHistoryCount.
  case_match; simpl; [by rewrite length_insert | done].
Qed.

Lemma setFamilyDiseaseHistory_in_range (index : Z) (value : bool)
    (f : FamilyHealth.t) :
  0 <= index < getFamilyHistoryCount f ->
  setFamilyDiseaseHistory index value f
  = FamilyHealth.mk (ageGroup f) (gender f) (sleepHours f)
      (exerciseFrequency f) (dietType f) (isSmoker f) (familyDiseases f)
      (<[Z.to_nat index := value]> (familyDiseasesHistory f)).
Proof.
  intros Hi. unfold setFamilyDiseaseHistory, getFamilyHistoryCount in *.
  rewrite Z.geb_leb.
  destruct (Z.leb_spec 0 index), (Z.ltb_spec index
    (static_cast_int (Z.of_nat (length (familyDiseasesHistory f))))); simpl;
    (done || lia).
Qed.

Lemma setFamilyDiseaseHistory_out_of_range (index : Z) (value : bool)
    (f : FamilyHealth.t) :
  ~ 0 <= index < getFamilyHistoryCount f ->
  setFamilyDiseaseHistory index value f = f.
Proof.
  intros Hi. unfold setFamilyDiseaseHistory, getFamilyHistoryCount in *.
  rewrite Z.geb_leb.
  destruct (Z.leb_spec 0 index), (Z.ltb_spec index
    (static_cast_int (Z.of_nat (length (familyDiseasesHistory f))))); simpl;
    (done || lia).
Qed.

Lemma count_le_length (f : FamilyHealth.t) :
  getFamilyHistoryCount f <= Z.of_nat (length (familyDiseasesHistory f)).
Proof. apply static_cast_int_le. lia. Qed.

(** A write at one index is not seen at another. *)
Lemma hasFamilyDisease_after_set_other (f : FamilyHealth.t) (index j : Z)
    (value : bool) :
  j <> index ->
  hasFamilyDisease (setFamilyDiseaseHistory index value f) j
  = hasFamilyDisease f j.
Proof.
  intros Hne.
  destruct (decide (0 <= index < getFamilyHistoryCount f)) as [Hin | Hout].
  - pose proof (count_le_length f) as Hle.
    unfold hasFamilyDisease. rewrite setFamilyDiseaseHistory_count.
    rewrite setFamilyDiseaseHistory_in_range by done. simpl.
    destruct ((j <? 0) || (j >=? getFamilyHistoryCount f)) eqn:Hg; [done |].
    apply list_lookup_insert_ne.
    apply orb_false_iff in Hg as [Hj _]. apply Z.ltb_ge in Hj. lia.
  - by rewrite setFamilyDiseaseHistory_out_of_range.
Qed.

(** X1. What the setter stores, the getter reads back: after
    [setFamilyDiseaseHistory(index, value)], [hasFamilyDisease(j)] is [value]
    at [j = index] when the index is inside the history, and what it was
    before at every other [j], inside or outside; a call with an index
    outside the history changes no read. *)
Theorem hasFamilyDisease_after_set (f : FamilyHealth.t) (index j : Z)
    (value : bool) :
  hasFamilyDisease (setFamilyDiseaseHistory index value f) j
  = if (j =? index) && (0 <=? index) && (index <? getFamilyHistoryCount f)
    then Some value
    else hasFamilyDisease f j.
Proof.
  destruct (decide (0 <= index < getFamilyHistoryCount f)) as [Hin | Hout].
  - pose proof (count_le_length f) as Hle.
    unfold hasFamilyDisease at 1. rewrite setFamilyDiseaseHistory_count.
    rewrite setFamilyDiseaseHistory_in_range by done. simpl.
    destruct (Z.eqb_spec j index) as [-> | Hne]; simpl.
    + destruct (Z.leb_spec 0 index), (Z.ltb_spec index (getFamilyHistoryCount f));
        try lia. simpl.
      destruct (Z.ltb_spec index 0); [lia |].
      rewrite Z.geb_leb.
      destruct (Z.leb_spec (getFamilyHistoryCount f) index); [lia |]. simpl.
      apply list_lookup_insert_eq. lia.
    + unfold hasFamilyDisease.
      destruct ((j <? 0) || (j >=? getFamilyHistoryCount f)) eqn:Hg; [done |].
      apply list_lookup_insert_ne.
      apply orb_false_iff in Hg as [Hj _]. apply Z.ltb_ge in Hj. lia.
  - rewrite setFamilyDiseaseHistory_out_of_range by done.
    destruct (Z.leb_spec 0 index), (Z.ltb_spec index (getFamilyHistoryCount f));
      try lia; by rewrite ?andb_false_r.
Qed.

(** X2. Two writes to the history: at the same index the later one wins, at
    different indices they commute. *)
Theorem setFamilyDiseaseHistory_twice (f : FamilyHealth.t) (i j : Z)
    (a b : bool) :
  setFamilyDiseaseHistory i a (setFamilyDiseaseHistory i b f)
  = setFamilyDiseaseHistory i a f /\
  (i <> j ->
   setFamilyDiseaseHistory i a (setFamilyDiseaseHistory j b f)
   = setFamilyDiseaseHistory j b (setFamilyDiseaseHistory i a f)).
Proof.
  assert (Hgen : forall (x y : Z) (u v : bool),
             0 <= x < getFamilyHistoryCount f ->
             0 <= y < getFamilyHistoryCount f ->
             setFamilyDiseaseHistory x u (setFamilyDiseaseHistory y v f)
             = FamilyHealth.mk (ageGroup f) (gender f) (sleepHours f)
                 (exerciseFrequency f) (dietType f) (isSmoker f)
                 (familyDiseases f)
                 (<[Z.to_nat x := u]> (<[Z.to_nat y := v]>
                    (familyDiseasesHistory f)))).
  { intros x y u v Hx Hy.
    rewrite (setFamilyDiseaseHistory_in_range x)
      by (by rewrite setFamilyDiseaseHistory_count).
    by rewrite (setFamilyDiseaseHistory_in_range y) by done. }
  destruct (decide (0 <= i < getFamilyHistoryCount f)) as [Hi | Hi];
    destruct (decide (0 <= j < getFamilyHistoryCount f)) as [Hj | Hj].
  - split.
    + rewrite Hgen by done. rewrite list_insert_insert_eq.
      by rewrite setFamilyDiseaseHistory_in_range.
    + intros Hne. rewrite !Hgen by done. f_equal.
      apply list_insert_insert_ne. lia.
  - split.
    + rewrite Hgen by done. rewrite list_insert_insert_eq.
      by rewrite setFamilyDiseaseHistory_in_range.
    + intros _. rewrite (setFamilyDiseaseHistory_out_of_range j b f) by done.
      symmetry. apply setFamilyDiseaseHistory_out_of_range.
      by rewrite setFamilyDiseaseHistory_count.
  - split.
    + by rewrite (setFamilyDiseaseHistory_out_of_range i b f).
    + intros _. rewrite (setFamilyDiseaseHistory_out_of_range i a f) by done.
      apply setFamilyDiseaseHistory_out_of_range.
      by rewrite setFamilyDiseaseHistory_count.
  - split.
    + by rewrite (setFamilyDiseaseHistory_out_of_range i b f).
    + intros _. rewrite (setFamilyDiseaseHistory_out_of_range i a f) by done.
      apply setFamilyDiseaseHistory_out_of_range.
      by rewrite setFamilyDiseaseHistory_count.
Qed.

Lemma setFamilyDiseaseHistory_twice_witness :
  (1 <> 3) /\
  setFamilyDiseaseHistory 1 true (setFamilyDiseaseHistory 3 true lowRiskProfile)
  = setFamilyDiseaseHistory 3 true (setFamilyDiseaseHistory 1 true lowRiskProfile).
Proof.
  assert (Hne : 1 <> 3) by lia.
  split; [exact Hne |].
  exact (proj2 (setFamilyDiseaseHistory_twice lowRiskProfile 1 3 true true) Hne).
Defined.

Lemma wf_perform (c : SetterCall) (f : FamilyHealth.t) :
  wf f -> wf (perform c f).
Proof.
  intros Hwf. destruct c; simpl;
    try (by apply (wf_scalar_setters f 0 false Hwf));
    try (by destruct Hwf).
  by apply wf_setFamilyDiseaseHistory.
Qed.

Lemma labels_perform (c : SetterCall) (f : FamilyHealth.t) :
  familyDiseases (perform c f) = familyDiseases f.
Proof.
  destruct c; simpl; try reflexivity.
  unfold setFamilyDiseaseHistory. by case_match.
Qed.

(** X3. The class invariant. Starting from the constructor, whatever setters
    are called, in whatever order and with whatever arguments, the object
    keeps its four history entries and the four disease labels of the
    constructor, [getFamilyHistoryCount] is 4, and every
    [hasFamilyDisease(i)] has a result. *)
Theorem setters_keep_invariant (u : FamilyHealth.t) (cs : list SetterCall) :
  let f := performAll cs (FamilyHealth.FamilyHealth u) in
  wf f /\
  getFamilyDiseases f = diseaseLabels /\
  getFamilyHistoryCount f = 4 /\
  forall i : Z, exists b, hasFamilyDisease f i = Some b.
Proof.
  assert (Hinv : forall cs f,
             wf f -> familyDiseases f = diseaseLabels ->
             wf (performAll cs f) /\
             familyDiseases (performAll cs f) = diseaseLabels).
  { clear. induction cs as [| c cs IH]; intros f Hwf Hl; simpl; [done |].
    apply IH; [by apply wf_perform | by rewrite labels_perform]. }
  destruct (Hinv cs (FamilyHealth.FamilyHealth u) (wf_FamilyHealth u) eq_refl)
    as [Hwf Hl].
  split; [exact Hwf |]. split; [exact Hl |].
  split; [by apply wf_count | intros i; apply hasFamilyDisease_total].
Qed.

(** ** The score, factor by factor *)

(** The score of an object whose family block is known. *)
Lemma riskScore_with_family (f : FamilyHealth.t) (fd : Z) :
  familyDiseaseBased f = Some fd ->
  riskScore f
  = Some (ageBased f + genderBased f + sleepBased f + exerciseBased f
          + fd + dietBased f + smokingBased f).
Proof.
  intros Hfd. destruct (riskScore_sum f) as (fd' & Hfd' & ->). congruence.
Qed.

(** X4. Each entry of the family-disease history counts on its own: with the
    rest of the object fixed, setting entry 0 instead of clearing it raises
    the score by exactly 2, entry 1 by 1, entry 2 by 2 and entry 3 by 2. *)
Theorem family_disease_weights (f : FamilyHealth.t) :
  wf f ->
  exists s0 s1 s2 s3,
    riskScore (setFamilyDiseaseHistory 0 false f) = Some s0 /\
    riskScore (setFamilyDiseaseHistory 0 true f) = Some (s0 + 2) /\
    riskScore (setFamilyDiseaseHistory 1 false f) = Some s1 /\
    riskScore (setFamilyDiseaseHistory 1 true f) = Some (s1 + 1) /\
    riskScore (setFamilyDiseaseHistory 2 false f) = Some s2 /\
    riskScore (setFamilyDiseaseHistory 2 true f) = Some (s2 + 2) /\
    riskScore (setFamilyDiseaseHistory 3 false f) = Some s3 /\
    riskScore (setFamilyDiseaseHistory 3 true f) = Some (s3 + 2).
Proof.
  intros Hwf. destruct (wf_history f Hwf) as (b0 & b1 & b2 & b3 & Hh).
  destruct f as [ag g sl ex dt sm labels history]. simpl in Hh. subst history.
  assert (Hset : forall (i : Z) (v : bool),
             0 <= i < 4 ->
             setFamilyDiseaseHistory i v
               (FamilyHealth.mk ag g sl ex dt sm labels [b0; b1; b2; b3])
             = FamilyHealth.mk ag g sl ex dt sm labels
                 (<[Z.to_nat i := v]> [b0; b1; b2; b3])).
  { intros i v Hi. apply setFamilyDiseaseHistory_in_range.
    rewrite wf_count by done. exact Hi. }
  rewrite !Hset by lia.
  eexists _, _, _, _.
  repeat split;
    try (unfold riskScore; simpl; reflexivity);
    unfold riskScore, ageBased, genderBased, sleepBased, exerciseBased,
      dietBased, smokingBased, getAgeGroup, getGender, getSleepHours,
      getExerciseFrequency, getDietType, getIsSmoker;
    simpl; f_equal; destruct b0, b1, b2, b3; lia.
Qed.

Lemma family_disease_weights_witness :
  wf lowRiskProfile /\
  exists s0 s1 s2 s3,
    riskScore (setFamilyDiseaseHistory 0 false lowRiskProfile) = Some s0 /\
    riskScore (setFamilyDiseaseHistory 0 true lowRiskProfile) = Some (s0 + 2) /\
    riskScore (setFamilyDiseaseHistory 1 false lowRiskProfile) = Some s1 /\
    riskScore (setFamilyDiseaseHistory 1 true lowRiskProfile) = Some (s1 + 1) /\
    riskScore (setFamilyDiseaseHistory 2 false lowRiskProfile) = Some s2 /\
    riskScore (setFamilyDiseaseHistory 2 true lowRiskProfile) = Some (s2 + 2) /\
    riskScore (setFamilyDiseaseHistory 3 false lowRiskProfile) = Some s3 /\
    riskScore (setFamilyDiseaseHistory 3 true lowRiskProfile) = Some (s3 + 2).
Proof.
  assert (Hwf : wf lowRiskProfile) by (split; reflexivity).
  split; [exact Hwf | exact (family_disease_weights lowRiskProfile Hwf)].
Defined.

(** X5. Smoking costs exactly 2 points, being male instead of female
    exactly 1 point up to age group 3 and nothing above it, whatever the
    rest of the object holds. *)
Theorem smoking_and_sex_gaps (f : FamilyHealth.t) :
  exists s t,
    riskScore (setIsSmoker false f) = Some s /\
    riskScore (setIsSmoker true f) = Some (s + 2) /\
    riskScore (setGender false f) = Some t /\
    riskScore (setGender true f)
    = Some (t + (if getAgeGroup f <=? 3 then 1 else 0)).
Proof.
  destruct (familyDiseaseBased_bounds f) as (fd & Hfd & _).
  assert (Hsm : forall b, riskScore (setIsSmoker b f)
                          = Some (ageBased f + genderBased f + sleepBased f
                                  + exerciseBased f + fd + dietBased f
                                  + (if b then 3 else 1))).
  { intros b. by rewrite (riskScore_with_family (setIsSmoker b f) fd Hfd). }
  assert (Hg : forall b, riskScore (setGender b f)
                         = Some (ageBased f
                                 + (if getAgeGroup f <=? 3
                                    then (if b then 2 else 1) else 3)
                                 + sleepBased f + exerciseBased f + fd
                                 + dietBased f + smokingBased f)).
  { intros b. rewrite (riskScore_with_family (setGender b f) fd Hfd).
    unfold genderBased, getGender, getAgeGroup. simpl.
    by destruct b, (ageGroup f <=? 3). }
  eexists _, _. rewrite !Hsm, !Hg.
  split; [reflexivity |]. split; [f_equal; lia |].
  split; [reflexivity |]. f_equal. destruct (getAgeGroup f <=? 3); lia.
Qed.

(** X6. Inside the domain 1..6 an older age group never scores less, the
    other answers being equal. Outside the domain this fails: age group 0
    scores 2 more than age group 1. *)
Theorem older_never_scores_less (f : FamilyHealth.t) (a a' : Z) :
  1 <= a -> a <= a' -> a' <= 6 ->
  exists s s' s0 s1,
    riskScore (setAgeGroup a f) = Some s /\
    riskScore (setAgeGroup a' f) = Some s' /\
    s <= s' /\
    riskScore (setAgeGroup 0 f) = Some s0 /\
    riskScore (setAgeGroup 1 f) = Some s1 /\
    s0 = s1 + 2.
Proof.
  intros H1 H2 H3.
  destruct (familyDiseaseBased_bounds f) as (fd & Hfd & _).
  assert (Hage : forall x, riskScore (setAgeGroup x f)
                           = Some (ageBased (setAgeGroup x f)
                                   + genderBased (setAgeGroup x f)
                                   + sleepBased f + exerciseBased f + fd
                                   + dietBased f + smokingBased f)).
  { intros x. by rewrite (riskScore_with_family (setAgeGroup x f) fd Hfd). }
  eexists _, _, _, _. rewrite !Hage.
  split; [reflexivity |]. split; [reflexivity |].
  split; [| split; [reflexivity |]; split; [reflexivity |]].
  - assert (Ha : a = 1 \/ a = 2 \/ a = 3 \/ a = 4 \/ a = 5 \/ a = 6) by lia.
    assert (Ha' : a' = 1 \/ a' = 2 \/ a' = 3 \/ a' = 4 \/ a' = 5 \/ a' = 6)
      by lia.
    unfold ageBased, genderBased, getAgeGroup, getGender. simpl.
    destruct (gender f);
      destruct Ha as [-> | [-> | [-> | [-> | [-> | ->]]]]];
      destruct Ha' as [-> | [-> | [-> | [-> | [-> | ->]]]]];
      simpl; lia.
  - unfold ageBased, genderBased, getAgeGroup, getGender. simpl.
    destruct (gender f); simpl; lia.
Qed.

Lemma older_never_scores_less_witness :
  exists s s',
    riskScore (setAgeGroup 2 lowRiskProfile) = Some s /\
    riskScore (setAgeGroup 5 lowRiskProfile) = Some s' /\
    s <= s'.
Proof.
  destruct (older_never_scores_less lowRiskProfile 2 5
              ltac:(lia) ltac:(lia) ltac:(lia))
    as (s & s' & _ & _ & Hs & Hs' & Hle & _).
  by exists s, s'.
Defined.

(** X7. From "never" (1) upwards, exercising more often never scores more,
    the other answers being equal. *)
Theorem more_exercise_never_scores_more (f : FamilyHealth.t) (e e' : Z) :
  1 <= e -> e <= e' ->
  exists s s',
    riskScore (setExerciseFrequency e f) = Some s /\
    riskScore (setExerciseFrequency e' f) = Some s' /\
    s' <= s.
Proof.
  intros H1 H2.
  destruct (familyDiseaseBased_bounds f) as (fd & Hfd & _).
  assert (Hex : forall x, riskScore (setExerciseFrequency x f)
                          = Some (ageBased f + genderBased f + sleepBased f
                                  + exerciseBased (setExerciseFrequency x f)
                                  + fd + dietBased f + smokingBased f)).
  { intros x.
    by rewrite (riskScore_with_family (setExerciseFrequency x f) fd Hfd). }
  eexists _, _. rewrite !Hex.
  split; [reflexivity |]. split; [reflexivity |].
  unfold exerciseBased, getExerciseFrequency. simpl.
  destruct (Z.eqb_spec e 1), (Z.eqb_spec e 2), (Z.eqb_spec e' 1),
    (Z.eqb_spec e' 2); lia.
Qed.

Lemma more_exercise_never_scores_more_witness :
  exists s s',
    riskScore (setExerciseFrequency 1 highRiskProfile) = Some s /\
    riskScore (setExerciseFrequency 4 highRiskProfile) = Some s' /\
    s' <= s.
Proof.
  exact (more_exercise_never_scores_more highRiskProfile 1 4
           ltac:(lia) ltac:(lia)).
Defined.

Lemma hasFamilyDisease_total_false_low (i : Z) :
  hasFamilyDisease lowRiskProfile i = Some false.
Proof.
  destruct (decide (0 <= i < 4)) as [Hi | Hi].
  - assert (i = 0 \/ i = 1 \/ i = 2 \/ i = 3) as [-> | [-> | [-> | ->]]] by lia;
      reflexivity.
  - apply hasFamilyDisease_out_of_range.
    change (getFamilyHistoryCount lowRiskProfile) with 4. lia.
Qed.

(** X8. Lifestyle alone never reaches the High tier: a non-smoker without
    any family disease scores at most 16, so the message is never the High
    one. *)
Theorem non_smoker_without_history_never_high (f : FamilyHealth.t) :
  getIsSmoker f = false ->
  (forall i : Z, hasFamilyDisease f i = Some false) ->
  exists s,
    riskScore f = Some s /\ s <= 16 /\
    riskMessage s <> "High risk of heart disease.".
Proof.
  intros Hsm Hnone.
  assert (Hfd : familyDiseaseBased f = Some 0).
  { unfold familyDiseaseBased. by rewrite !Hnone. }
  rewrite (riskScore_with_family f 0 Hfd).
  eexists. split; [reflexivity |].
  pose proof (ageBased_bounds f). pose proof (genderBased_bounds f).
  pose proof (sleepBased_bounds f). pose proof (exerciseBased_bounds f).
  pose proof (dietBased_bounds f).
  assert (smokingBased f = 1) by (unfold smokingBased; by rewrite Hsm).
  split; [lia |].
  unfold riskMessage.
  destruct (Z.geb_spec (ageBased f + genderBased f + sleepBased f
                        + exerciseBased f + 0 + dietBased f + smokingBased f)
              18); [lia |].
  by case_match.
Qed.

Lemma non_smoker_without_history_never_high_witness :
  exists s,
    riskScore lowRiskProfile = Some s /\ s <= 16 /\
    riskMessage s <> "High risk of heart disease.".
Proof.
  apply (non_smoker_without_history_never_high lowRiskProfile eq_refl).
  intros i. apply hasFamilyDisease_total_false_low.
Defined.

(** X9. A full family history is never Low: with all four entries set the
    score is at least 12, whatever the other answers are, so the message is
    the Moderate or the High one. *)
Theorem full_history_never_low (f : FamilyHealth.t) :
  wf f ->
  exists s,
    riskScore (setAllFamilyDiseases true f) = Some s /\ 12 <= s /\
    riskMessage s <> "Low risk of heart disease. You are healthy!".
Proof.
  intros Hwf.
  pose proof (familyDiseaseBased_all true f Hwf) as Hfd. simpl in Hfd.
  rewrite (riskScore_with_family _ 7 Hfd).
  eexists. split; [reflexivity |].
  set (g := setAllFamilyDiseases true f).
  pose proof (ageBased_bounds g). pose proof (genderBased_bounds g).
  pose proof (sleepBased_bounds g). pose proof (exerciseBased_bounds g).
  pose proof (dietBased_bounds g). pose proof (smokingBased_bounds g).
  split; [lia |].
  unfold riskMessage.
  destruct (Z.geb_spec (ageBased g + genderBased g + sleepBased g
                        + exerciseBased g + 7 + dietBased g + smokingBased g)
              18); [done |].
  destruct (Z.geb_spec (ageBased g + genderBased g + sleepBased g
                        + exerciseBased g + 7 + dietBased g + smokingBased g)
              10); [done | lia].
Qed.

Lemma full_history_never_low_witness :
  wf lowRiskProfile /\
  exists s,
    riskScore (setAllFamilyDiseases true lowRiskProfile) = Some s /\ 12 <= s /\
    riskMessage s <> "Low risk of heart disease. You are healthy!".
Proof.
  assert (Hwf : wf lowRiskProfile) by (split; reflexivity).
  split; [exact Hwf | exact (full_history_never_low lowRiskProfile Hwf)].
Defined.

(** ** The simulated readings *)

(** The five readings of an assessment whose score is [s], as the ranges of
    lines 114-135 bound them. *)
Lemma readings_of_score (L : StdRandom) (family : FamilyHealth.t)
    (dev : device L) :
  sampler_contract L ->
  exists a dev',
    assessHeartHealth L family dev = Some (a, dev') /\
    ((printedRiskScore a < 10 /\
      (60 <= heartRate a <= 80)%Q /\ (110 <= sysBP a <= 120)%Q /\
      (70 <= diasBP a <= 80)%Q /\ (150 <= cholesterol a <= 200)%Q /\
      (0.05 <= ecg a <= 0.15)%Q) \/
     (10 <= printedRiskScore a < 18 /\
      (80 <= heartRate a <= 95)%Q /\ (120 <= sysBP a <= 135)%Q /\
      (80 <= diasBP a <= 90)%Q /\ (200 <= cholesterol a <= 240)%Q /\
      (0.02 <= ecg a <= 0.18)%Q) \/
     (18 <= printedRiskScore a /\
      (95 <= heartRate a <= 120)%Q /\ (135 <= sysBP a <= 160)%Q /\
      (90 <= diasBP a <= 110)%Q /\ (240 <= cholesterol a <= 300)%Q /\
      (-0.1 <= ecg a <= 0.3)%Q)).
Proof.
  intros contract.
  destruct (assessHeartHealth_returns L family dev contract)
    as (a & dev' & Ha & _ & _ & W).
  exists a, dev'. split; [exact Ha |].
  unfold Spec.tierOf in W.
  destruct (decide (printedRiskScore a < 10));
    [| destruct (decide (printedRiskScore a < 18))];
    repeat case_bool_decide; try lia.
  - left. split; [lia | exact W].
  - right; left. split; [lia | exact W].
  - right; right. split; [lia | exact W].
Qed.

(** An assessment with its score, its message and the overall bounds of
    its heart rate. *)
Lemma readings_overall_bounds_helper (L : StdRandom)
    (family : FamilyHealth.t) (dev : device L) :
  sampler_contract L ->
  exists a dev',
    assessHeartHealth L family dev = Some (a, dev') /\
    riskScore family = Some (printedRiskScore a) /\
    message a = riskMessage (printedRiskScore a) /\
    (60 <= heartRate a <= 120)%Q.
Proof.
  intros contract.
  destruct (assessHeartHealth_returns L family dev contract)
    as (a & dev' & Ha & Hs & Hm & _).
  destruct (readings_of_score L family dev contract) as (b & e & Hb & Hr).
  rewrite Ha in Hb. injection Hb as <- <-.
  exists a, dev'. split; [exact Ha |]. split; [exact Hs |].
  split; [exact Hm |].
  destruct Hr as [(_ & ? & _) | [(_ & ? & _) | (_ & ? & _)]]; lra.
Qed.

(** X10. Whatever the profile and the tier, the readings of an assessment
    stay in fixed overall bounds (heart rate 60..120, systolic 110..160,
    diastolic 70..110, cholesterol 150..300, ecg -0.1..0.3), and the
    systolic pressure is at least 25 above the diastolic. *)
Theorem readings_overall_bounds (L : StdRandom) (family : FamilyHealth.t)
    (dev : device L) :
  sampler_contract L ->
  exists a dev',
    assessHeartHealth L family dev = Some (a, dev') /\
    (60 <= heartRate a <= 120)%Q /\ (110 <= sysBP a <= 160)%Q /\
    (70 <= diasBP a <= 110)%Q /\ (150 <= cholesterol a <= 300)%Q /\
    (-0.1 <= ecg a <= 0.3)%Q /\
    (diasBP a + 25 <= sysBP a)%Q.
Proof.
  intros contract.
  destruct (readings_of_score L family dev contract)
    as (a & dev' & Ha & Hr).
  exists a, dev'. split; [exact Ha |].
  destruct Hr as [(_ & ? & ? & ? & ? & ?) | [(_ & ? & ? & ? & ? & ?)
                                            | (_ & ? & ? & ? & ? & ?)]];
    repeat split; lra.
Qed.

Lemma readings_overall_bounds_witness :
  sampler_contract Release.library /\
  exists a dev',
    assessHeartHealth Release.library highRiskProfile 7 = Some (a, dev') /\
    (60 <= heartRate a <= 120)%Q /\ (110 <= sysBP a <= 160)%Q /\
    (70 <= diasBP a <= 110)%Q /\ (150 <= cholesterol a <= 300)%Q /\
    (-0.1 <= ecg a <= 0.3)%Q /\
    (diasBP a + 25 <= sysBP a)%Q.
Proof.
  split; [exact release_contract |].
  exact (readings_overall_bounds Release.library highRiskProfile 7
           release_contract).
Defined.

(** X11. The readings rise with the tier: of two assessments, of any two
    profiles and with any random draws, the one in the higher tier has a
    heart rate, a systolic and a diastolic pressure and a cholesterol at
    least as high as the other's. *)
Theorem higher_tier_higher_readings (L : StdRandom)
    (f1 f2 : FamilyHealth.t) (dev1 dev2 : device L) :
  sampler_contract L ->
  exists a1 a2 d1 d2,
    assessHeartHealth L f1 dev1 = Some (a1, d1) /\
    assessHeartHealth L f2 dev2 = Some (a2, d2) /\
    (printedRiskScore a1 < 10 <= printedRiskScore a2 \/
     printedRiskScore a1 < 18 <= printedRiskScore a2 ->
     (heartRate a1 <= heartRate a2)%Q /\ (sysBP a1 <= sysBP a2)%Q /\
     (diasBP a1 <= diasBP a2)%Q /\ (cholesterol a1 <= cholesterol a2)%Q).
Proof.
  intros contract.
  destruct (readings_of_score L f1 dev1 contract) as (a1 & d1 & Ha1 & R1).
  destruct (readings_of_score L f2 dev2 contract) as (a2 & d2 & Ha2 & R2).
  exists a1, a2, d1, d2. split; [exact Ha1 |]. split; [exact Ha2 |].
  intros Htier.
  destruct R1 as [(T1 & ? & ? & ? & ? & ?) | [(T1 & ? & ? & ? & ? & ?)
                                             | (T1 & ? & ? & ? & ? & ?)]];
    destruct R2 as [(T2 & ? & ? & ? & ? & ?) | [(T2 & ? & ? & ? & ? & ?)
                                               | (T2 & ? & ? & ? & ? & ?)]];
    try lia; repeat split; lra.
Qed.

Lemma higher_tier_higher_readings_witness :
  sampler_contract Release.library /\
  exists a1 a2 d1 d2,
    assessHeartHealth Release.library lowRiskProfile 0 = Some (a1, d1) /\
    assessHeartHealth Release.library highRiskProfile 3 = Some (a2, d2) /\
    (heartRate a1 <= heartRate a2)%Q /\ (sysBP a1 <= sysBP a2)%Q /\
    (diasBP a1 <= diasBP a2)%Q /\ (cholesterol a1 <= cholesterol a2)%Q.
Proof.
  split; [exact release_contract |].
  destruct (higher_tier_higher_readings Release.library lowRiskProfile
              highRiskProfile 0 3 release_contract)
    as (a1 & a2 & d1 & d2 & Ha1 & Ha2 & Hrise).
  exists a1, a2, d1, d2. split; [exact Ha1 |]. split; [exact Ha2 |].
  apply Hrise. left.
  assert (Hs1 : printedRiskScore a1 = 6).
  { destruct (assessHeartHealth_returns Release.library lowRiskProfile 0
                release_contract) as (b & e & Hb & Hs & _).
    rewrite Ha1 in Hb. injection Hb as <- <-.
    change (riskScore lowRiskProfile) with (Some 6) in Hs. congruence. }
  assert (Hs2 : printedRiskScore a2 = 25).
  { destruct (assessHeartHealth_returns Release.library highRiskProfile 3
                release_contract) as (b & e & Hb & Hs & _).
    rewrite Ha2 in Hb. injection Hb as <- <-.
    change (riskScore highRiskProfile) with (Some 25) in Hs. congruence. }
  rewrite Hs1, Hs2. lia.
Defined.

(** ** Filling the object: gatherInfo and the survey form *)

(** The score of an in-domain object is the table's. *)
Lemma riskScore_in_domain (f : FamilyHealth.t) :
  Spec.inDomain f -> riskScore f = Some (Spec.tableScore f).
Proof.
  intros (Hage & Hsleep & Hex & Hdiet & Hwf).
  rewrite (riskScore_with_family f _ (familyDiseaseBased_table f Hwf)).
  unfold Spec.tableScore, Spec.scoringTable. rewrite !points_app.
  rewrite <- ageBased_table, <- genderBased_table, <- sleepBased_table,
    <- exerciseBased_table, <- dietBased_table, <- smokingBased_table by done.
  f_equal. lia.
Qed.

(** X12. [gatherInfo] with answers taken from the menus (age 1..6, sleep
    1..5, exercise 1..4, diet 1..6) reads ten integers and leaves an object
    inside the documented domains, whose score is the table's. It records
    male exactly for the answer 2, a family disease exactly for the answer
    1 and a smoker exactly for the answer 1 (any other integer counts as
    female, absent, non-smoker); the labels are untouched and nothing of
    the previous answers survives. *)
Theorem gatherInfo_menu_answers (f : FamilyHealth.t)
    (age sex sleep exercise cad diabetes chol bp diet smoking : Z)
    (rest : list Z) :
  wf f ->
  1 <= age <= 6 -> 1 <= sleep <= 5 -> 1 <= exercise <= 4 -> 1 <= diet <= 6 ->
  gatherInfo f (age :: sex :: sleep :: exercise :: cad :: diabetes :: chol
                :: bp :: diet :: smoking :: rest)
  = Some (FamilyHealth.mk age (sex =? 2) sleep exercise diet (smoking =? 1)
            (familyDiseases f)
            [cad =? 1; diabetes =? 1; chol =? 1; bp =? 1], rest) /\
  exists f',
    gatherInfo f (age :: sex :: sleep :: exercise :: cad :: diabetes :: chol
                  :: bp :: diet :: smoking :: rest) = Some (f', rest) /\
    Spec.inDomain f' /\
    riskScore f' = Some (Spec.tableScore f') /\
    getGender f' = (sex =? 2) /\
    getIsSmoker f' = (smoking =? 1) /\
    hasFamilyDisease f' 0 = Some (cad =? 1) /\
    hasFamilyDisease f' 1 = Some (diabetes =? 1) /\
    hasFamilyDisease f' 2 = Some (chol =? 1) /\
    hasFamilyDisease f' 3 = Some (bp =? 1).
Proof.
  intros Hwf Hage Hsleep Hex Hdiet.
  destruct (wf_history f Hwf) as (b0 & b1 & b2 & b3 & Hh).
  assert (Hrun : gatherInfo f (age :: sex :: sleep :: exercise :: cad
                               :: diabetes :: chol :: bp :: diet :: smoking
                               :: rest)
                 = Some (FamilyHealth.mk age (sex =? 2) sleep exercise diet
                           (smoking =? 1) (familyDiseases f)
                           [cad =? 1; diabetes =? 1; chol =? 1; bp =? 1],
                         rest)).
  { unfold gatherInfo. rewrite Hh. reflexivity. }
  split; [exact Hrun |].
  eexists. split; [exact Hrun |].
  assert (Hdom : Spec.inDomain
                   (FamilyHealth.mk age (sex =? 2) sleep exercise diet
                      (smoking =? 1) (familyDiseases f)
                      [cad =? 1; diabetes =? 1; chol =? 1; bp =? 1])).
  { unfold Spec.inDomain, wf. simpl. destruct Hwf as [Hl _].
    repeat split; (lia || done). }
  split; [exact Hdom |]. split; [by apply riskScore_in_domain |].
  repeat split.
Qed.

Lemma gatherInfo_menu_answers_witness :
  wf highRiskProfile /\
  gatherInfo highRiskProfile [1; 1; 3; 3; 0; 0; 0; 0; 6; 0; 42]
  = Some (lowRiskProfile, [42]).
Proof.
  assert (Hwf : wf highRiskProfile) by (split; reflexivity).
  split; [exact Hwf |].
  exact (proj1 (gatherInfo_menu_answers highRiskProfile 1 1 3 3 0 0 0 0 6 0
                  [42] Hwf ltac:(lia) ltac:(lia) ltac:(lia) ltac:(lia))).
Defined.

(** What [submitSurvey] leaves in [familyData]: the six scalar members come
    from the form, of the history only entry 0 is written. *)
Lemma submitSurvey_fields (currentIndex : nat -> Z) (f : FamilyHealth.t)
    (b0 b1 b2 b3 : bool) :
  familyDiseasesHistory f = [b0; b1; b2; b3] ->
  submitSurvey currentIndex f
  = FamilyHealth.mk (currentIndex 0%nat + 1) (currentIndex 1%nat =? 1)
      (currentIndex 2%nat + 1) (currentIndex 3%nat + 1)
      (currentIndex 5%nat + 1) (currentIndex 6%nat =? 1)
      (familyDiseases f) [currentIndex 4%nat =? 1; b1; b2; b3].
Proof.
  intros Hh. unfold submitSurvey. cbv zeta.
  rewrite setFamilyDiseaseHistory_in_range.
  - simpl. by rewrite Hh.
  - unfold getFamilyHistoryCount. simpl. rewrite Hh. done.
Qed.

(** X13. When every question of the form has one of its options chosen,
    [submitSurvey] leaves [familyData] inside the documented domains,
    whatever it held before, so its score is the table's; of the family
    history it writes entry 0 only and leaves entries 1 to 3 as they were. *)
Theorem submitSurvey_in_domain (currentIndex : nat -> Z)
    (familyData : FamilyHealth.t) :
  answered currentIndex ->
  wf familyData ->
  let f' := submitSurvey currentIndex familyData in
  Spec.inDomain f' /\
  riskScore f' = Some (Spec.tableScore f') /\
  hasFamilyDisease f' 0 = Some (currentIndex 4%nat =? 1) /\
  (forall i : Z, i <> 0 -> hasFamilyDisease f' i = hasFamilyDisease familyData i).
Proof.
  intros Hans Hwf f'.
  destruct (wf_history familyData Hwf) as (b0 & b1 & b2 & b3 & Hh).
  pose proof (submitSurvey_fields currentIndex familyData b0 b1 b2 b3 Hh) as Hf.
  fold f' in Hf.
  pose proof (Hans 0%nat ltac:(lia)) as H0. pose proof (Hans 2%nat ltac:(lia)) as H2.
  pose proof (Hans 3%nat ltac:(lia)) as H3. pose proof (Hans 5%nat ltac:(lia)) as H5.
  simpl in H0, H2, H3, H5.
  assert (Hdom : Spec.inDomain f').
  { rewrite Hf. unfold Spec.inDomain, wf. simpl. destruct Hwf as [Hl _].
    repeat split; (lia || done). }
  split; [exact Hdom |]. split; [by apply riskScore_in_domain |].
  split; [by rewrite Hf |].
  intros i Hi. unfold f', submitSurvey. cbv zeta.
  rewrite hasFamilyDisease_after_set_other by done.
  reflexivity.
Qed.

Lemma firstOptions_answered : answered firstOptions.
Proof.
  intros q Hq. unfold firstOptions.
  do 7 (destruct q as [| q]; [simpl; lia |]). lia.
Qed.

Lemma submitSurvey_in_domain_witness :
  answered firstOptions /\ wf highRiskProfile /\
  Spec.inDomain (submitSurvey firstOptions highRiskProfile) /\
  hasFamilyDisease (submitSurvey firstOptions highRiskProfile) 3
  = hasFamilyDisease highRiskProfile 3.
Proof.
  assert (Hwf : wf highRiskProfile) by (split; reflexivity).
  destruct (submitSurvey_in_domain firstOptions highRiskProfile
              firstOptions_answered Hwf) as (Hdom & _ & _ & Hother).
  split; [exact firstOptions_answered |]. split; [exact Hwf |].
  split; [exact Hdom | apply Hother; lia].
Defined.

(** The history of a form's object: only entry 0 is ever set. *)
Lemma submitAll_history (u : FamilyHealth.t) (forms : list (nat -> Z)) :
  exists b0,
    familyDiseasesHistory (submitAll forms (FamilyHealth.FamilyHealth u))
    = [b0; false; false; false] /\
    familyDiseases (submitAll forms (FamilyHealth.FamilyHealth u))
    = diseaseLabels.
Proof.
  assert (Hinv : forall forms f b,
             familyDiseasesHistory f = [b; false; false; false] ->
             familyDiseases f = diseaseLabels ->
             exists b0,
               familyDiseasesHistory (submitAll forms f)
               = [b0; false; false; false] /\
               familyDiseases (submitAll forms f) = diseaseLabels).
  { clear. induction forms as [| idx forms IH]; intros f b Hh Hl; simpl.
    - by exists b.
    - apply (IH _ (idx 4%nat =? 1));
        by rewrite (submitSurvey_fields idx f b false false false Hh). }
  by apply (Hinv forms _ false).
Qed.

(** X14. Through the survey form the score stays between 6 and 20. However
    often the form was submitted before and with whatever choices, after a
    submission with every question answered the object is the one a fresh
    object would give with these answers: nothing of earlier submissions or
    of the uninitialised members is left, and history entries 1 to 3 are
    never set. *)
Theorem survey_score_range (u u' : FamilyHealth.t)
    (previous : list (nat -> Z)) (currentIndex : nat -> Z) :
  answered currentIndex ->
  let f := submitSurvey currentIndex
             (submitAll previous (FamilyHealth.FamilyHealth u)) in
  f = submitSurvey currentIndex (FamilyHealth.FamilyHealth u') /\
  hasFamilyDisease f 1 = Some false /\
  hasFamilyDisease f 2 = Some false /\
  hasFamilyDisease f 3 = Some false /\
  exists s, riskScore f = Some s /\ 6 <= s <= 20.
Proof.
  intros Hans f.
  destruct (submitAll_history u previous) as (b0 & Hh & Hl).
  pose proof (submitSurvey_fields currentIndex _ b0 false false false Hh) as Hf.
  fold f in Hf. rewrite Hl in Hf.
  split.
  { rewrite Hf. symmetry.
    by rewrite (submitSurvey_fields currentIndex _ false false false false). }
  rewrite Hf. split; [done |]. split; [done |]. split; [done |].
  pose proof (Hans 0%nat ltac:(lia)) as H0. pose proof (Hans 2%nat ltac:(lia)) as H2.
  pose proof (Hans 3%nat ltac:(lia)) as H3. pose proof (Hans 5%nat ltac:(lia)) as H5.
  simpl in H0, H2, H3, H5.
  set (g := FamilyHealth.mk _ _ _ _ _ _ _ _).
  assert (Hfd : familyDiseaseBased g
                = Some (if currentIndex 4%nat =? 1 then 2 else 0)).
  { unfold g. by destruct (currentIndex 4%nat =? 1). }
  rewrite (riskScore_with_family g _ Hfd).
  eexists. split; [reflexivity |].
  pose proof (ageBased_bounds g). pose proof (genderBased_bounds g).
  pose proof (sleepBased_bounds g). pose proof (exerciseBased_bounds g).
  pose proof (smokingBased_bounds g).
  assert (1 <= dietBased g <= 3).
  { unfold dietBased, getDietType, g. simpl.
    destruct (Z.eqb_spec (currentIndex 5%nat + 1) 4); [lia |].
    destruct (Z.eqb_spec (currentIndex 5%nat + 1) 1); simpl; [lia |].
    destruct (Z.eqb_spec (currentIndex 5%nat + 1) 2); simpl; [lia |].
    destruct (Z.eqb_spec (currentIndex 5%nat + 1) 3); simpl; [lia |].
    destruct (Z.eqb_spec (currentIndex 5%nat + 1) 6); simpl; [lia |].
    destruct (Z.eqb_spec (currentIndex 5%nat + 1) 5); simpl; lia. }
  destruct (currentIndex 4%nat =? 1); lia.
Qed.

Lemma survey_score_range_witness :
  answered firstOptions /\
  exists s,
    riskScore (submitSurvey firstOptions
                 (submitAll [firstOptions; (fun _ => 1)]
                    (FamilyHealth.FamilyHealth highRiskProfile))) = Some s /\
    6 <= s <= 20.
Proof.
  split; [exact firstOptions_answered |].
  exact (proj2 (proj2 (proj2 (proj2
           (survey_score_range highRiskProfile lowRiskProfile
              [firstOptions; (fun _ => 1)] firstOptions
              firstOptions_answered))))).
Defined.

(** ** Text: trimming and splitting *)











(** ** HeartHealthScreen *)

Import HeartHealthScreen.

Lemma readRows_acc (u : string) (lines acc : list string) :
  readRows u lines acc = acc ++ readRows u lines [].
Proof.
  revert acc. induction lines as [| line lines IH]; intros acc; simpl.
  - by rewrite app_nil_r.
  - destruct (Text.isEmpty (Text.trimmed line)); [apply IH |].
    destruct (Text.split Text.comma (Text.trimmed line))
      as [| p0 [| p1 [| p2 [| p3 parts]]]]; try apply IH.
    case_decide; [| apply IH].
    rewrite IH, (IH [p2]). by rewrite <- app_assoc.
Qed.



Section Rows.
Variable L : StdRandom.
Variable T : NumberText.
Hypothesis contract : sampler_contract L.

(** The loop that writes the rows: it ends, one row per iteration, each
    with a heart rate drawn within 5 of the one on the screen. *)
Lemma appendRows_spec (count : nat) (i : Z) (clock : Z -> Z) (u : string)
    (hr : Q) (dev : device L) :
  exists rows dev' hrs,
    appendRows L T count i clock u hr dev = Some (rows, dev') /\
    length hrs = count /\
    Forall (fun x => (hr - 5 <= x <= hr + 5)%Q) hrs /\
    Forall2 (fun row x =>
               exists now, row = u +:+ "," +:+ number T now +:+ ","
                                 +:+ number_f1 T x) rows hrs.
Proof.
  revert i dev. induction count as [| count IH]; intros i dev; simpl.
  - by exists [], dev, [].
  - destruct (contract (hr - 5)%Q (hr + 5)%Q dev ltac:(lra))
      as (x & dev1 & -> & Hx). simpl.
    destruct (IH (i + 1) dev1) as (rows & dev2 & hrs & -> & Hlen & Hb & Hrows).
    simpl. eexists _, dev2, (x :: hrs). split; [reflexivity |].
    split; [simpl; lia |]. split; [by constructor |].
    constructor; [by eexists | done].
Qed.

End Rows.


(** The level derived from each of the three messages. *)
Lemma riskLevel_of_message (riskScore : Z) :
  riskLevel (riskMessage riskScore)
  = match Spec.tierOf riskScore with
    | Spec.Low => "low"
    | Spec.Moderate => "moderate"
    | Spec.High => "high"
    end.
Proof. rewrite riskMessage_tier. by destruct (Spec.tierOf riskScore). Qed.

Section Display.
Variable L : StdRandom.
Variable T : NumberText.
Hypothesis contract : sampler_contract L.

(** One call of [displayResults], end to end. *)
Lemma displayResults_spec (clock : Z -> Z) (familyData : FamilyHealth.t)
    (s : HeartHealthScreen.t) (w : World L) :
  exists a dev1 s' w' rows hrs,
    assessHeartHealth L familyData (seeds w) = Some (a, dev1) /\
    displayResults L T clock familyData s w = Some (s', w') /\
    s' = loadDataFromCSV (userdata w')
           (HeartHealthScreen.mk (user s) (message a)
              ("Heart Rate: " +:+ number_f1 T (heartRate a) +:+ " BPM")
              (riskLevel (message a))
              (if Text.found "Low risk of heart disease." (message a)
               then m_beepTimer s
               else if Text.found "High risk of heart disease." (message a)
               then true else m_beepTimer s)
              (heartRateSeries s) (currentX s) (liveDataIndex s)
              (liveDataLines s)) /\
    writable w' = writable w /\
    userdata w'
    = (if negb (Text.isEmpty (user s)) && writable w
       then Some (default [] (userdata w) ++ rows)
       else userdata w) /\
    length hrs = 20%nat /\
    Forall (fun x => (heartRate a - 5 <= x <= heartRate a + 5)%Q) hrs /\
    Forall2 (fun row x =>
               exists now, row = user s +:+ "," +:+ number T now +:+ ","
                                 +:+ number_f1 T x) rows hrs.
Proof.
  destruct (assessHeartHealth_returns L familyData (seeds w) contract)
    as (a & dev1 & Ha & _).
  destruct (appendRows_spec L T contract 20 0 clock (user s) (heartRate a) dev1)
    as (rows & dev2 & hrs & Hrows & Hlen & Hb & Hshape).
  exists a, dev1.
  unfold displayResults. rewrite Ha. cbn [mbind option_bind].
  unfold riskLevel.
  destruct (Text.isEmpty (user s)) eqn:Hu; cbn [negb andb];
    [| destruct (writable w) eqn:Hw]; rewrite ?Hrows; cbn [mbind option_bind];
    destruct (Text.found "Low risk of heart disease." (message a));
    [| destruct (Text.found "High risk of heart disease." (message a));
       [| destruct (Text.found "Moderate risk of heart disease." (message a))]
     | | destruct (Text.found "High risk of heart disease." (message a));
       [| destruct (Text.found "Moderate risk of heart disease." (message a))]
     | | destruct (Text.found "High risk of heart disease." (message a));
       [| destruct (Text.found "Moderate risk of heart disease." (message a))]];
    eexists _, _, rows, hrs; (split; [reflexivity |]);
    (split; [reflexivity |]); cbn [userdata writable];
    rewrite ?Hw; repeat split; auto.
Qed.

End Display.

(** ** The decimal number text *)









(** ** displayResults *)

Lemma loadDataFromCSV_keeps (file : option (list string))
    (s : HeartHealthScreen.t) :
  user (loadDataFromCSV file s) = user s /\
  resultLabel (loadDataFromCSV file s) = resultLabel s /\
  heartRateLabel (loadDataFromCSV file s) = heartRateLabel s /\
  m_currentRisk (loadDataFromCSV file s) = m_currentRisk s /\
  m_beepTimer (loadDataFromCSV file s) = m_beepTimer s /\
  heartRateSeries (loadDataFromCSV file s) = heartRateSeries s /\
  currentX (loadDataFromCSV file s) = currentX s.
Proof. by destruct file. Qed.

(** The assessment a call of [displayResults] works with. *)
Lemma displayResults_assessment (L : StdRandom) (familyData : FamilyHealth.t)
    (dev : device L) (a : Assessment) (dev1 : device L) :
  sampler_contract L ->
  assessHeartHealth L familyData dev = Some (a, dev1) ->
  riskScore familyData = Some (printedRiskScore a) /\
  message a = riskMessage (printedRiskScore a) /\
  (60 <= heartRate a <= 120)%Q.
Proof.
  intros contract Ha.
  destruct (readings_overall_bounds_helper L familyData dev contract)
    as (b & dev' & Hb & Hs & Hm & Hhr).
  rewrite Ha in Hb. injection Hb as <- <-. done.
Qed.

(** X15. The risk level of the screen follows the tier: after
    [displayResults] the result label shows the message of the profile's
    score and [m_currentRisk] is "low" below 10, "moderate" from 10 to 17 and
    "high" from 18 on; it is never left empty. *)
Theorem displayed_risk_matches_tier (L : StdRandom) (T : NumberText)
    (clock : Z -> Z) (familyData : FamilyHealth.t) (s : HeartHealthScreen.t)
    (w : World L) :
  sampler_contract L ->
  exists s' w' score,
    displayResults L T clock familyData s w = Some (s', w') /\
    riskScore familyData = Some score /\
    resultLabel s' = riskMessage score /\
    m_currentRisk s'
    = (if score <? 10 then "low" else if score <? 18 then "moderate"
       else "high") /\
    m_currentRisk s' <> "".
Proof.
  intros contract.
  destruct (displayResults_spec L T contract clock familyData s w)
    as (a & dev1 & s' & w' & rows & hrs & Ha & Hrun & Hs' & _).
  destruct (displayResults_assessment L familyData _ a dev1 contract Ha)
    as (Hscore & Hm & _).
  exists s', w', (printedRiskScore a).
  split; [exact Hrun |]. split; [exact Hscore |].
  destruct (loadDataFromCSV_keeps (userdata w')
              (HeartHealthScreen.mk (user s) (message a)
                 ("Heart Rate: " +:+ number_f1 T (heartRate a) +:+ " BPM")
                 (riskLevel (message a))
                 (if Text.found "Low risk of heart disease." (message a)
                  then m_beepTimer s
                  else if Text.found "High risk of heart disease." (message a)
                  then true else m_beepTimer s)
                 (heartRateSeries s) (currentX s) (liveDataIndex s)
                 (liveDataLines s)))
    as (_ & Hlabel & _ & Hrisk & _).
  rewrite <- Hs' in Hlabel, Hrisk. simpl in Hlabel, Hrisk.
  rewrite Hlabel, Hrisk, Hm, riskLevel_of_message.
  split; [reflexivity |].
  unfold Spec.tierOf.
  destruct (Z.ltb_spec (printedRiskScore a) 10),
    (Z.ltb_spec (printedRiskScore a) 18);
    repeat case_bool_decide; try lia; done.
Qed.

Lemma displayed_risk_matches_tier_witness :
  sampler_contract Release.library /\
  exists s' w',
    displayResults Release.library Decimal.text (fun _ => 1700000100)
      highRiskProfile olaScreen olaWorld = Some (s', w') /\
    resultLabel s' = "High risk of heart disease." /\
    m_currentRisk s' = "high".
Proof.
  split; [exact release_contract |].
  destruct (displayed_risk_matches_tier Release.library Decimal.text
              (fun _ => 1700000100) highRiskProfile olaScreen olaWorld
              release_contract)
    as (s' & w' & score & Hrun & Hscore & Hlabel & Hrisk & _).
  change (riskScore highRiskProfile) with (Some 25) in Hscore.
  injection Hscore as <-.
  by exists s', w'.
Defined.

Section DisplayFields.
Variable L : StdRandom.
Variable T : NumberText.
Hypothesis contract : sampler_contract L.

(** [displayResults], member by member. *)
Lemma displayResults_fields (clock : Z -> Z) (familyData : FamilyHealth.t)
    (s : HeartHealthScreen.t) (w : World L) :
  exists a s' w' rows hrs,
    displayResults L T clock familyData s w = Some (s', w') /\
    riskScore familyData = Some (printedRiskScore a) /\
    (60 <= heartRate a <= 120)%Q /\
    heartRateLabel s'
    = "Heart Rate: " +:+ number_f1 T (heartRate a) +:+ " BPM" /\
    m_beepTimer s'
    = (if printedRiskScore a <? 18 then m_beepTimer s else true) /\
    liveDataLines s'
    = match userdata w' with
      | None => []
      | Some lines => readRows (user s) lines []
      end /\
    liveDataIndex s'
    = match userdata w' with
      | None => liveDataIndex s
      | Some _ => 0
      end /\
    writable w' = writable w /\
    userdata w'
    = (if negb (Text.isEmpty (user s)) && writable w
       then Some (default [] (userdata w) ++ rows)
       else userdata w) /\
    length rows = 20%nat /\
    length hrs = 20%nat /\
    Forall (fun x => (heartRate a - 5 <= x <= heartRate a + 5)%Q) hrs /\
    Forall2 (fun row x =>
               exists now, row = user s +:+ "," +:+ number T now +:+ ","
                                 +:+ number_f1 T x) rows hrs.
Proof.
  destruct (displayResults_spec L T contract clock familyData s w)
    as (a & dev1 & s' & w' & rows & hrs & Ha & Hrun & Hs' & Hw & Hfile
        & Hlen & Hb & Hshape).
  destruct (displayResults_assessment L familyData _ a dev1 contract Ha)
    as (Hscore & Hm & Hhr).
  exists a, s', w', rows, hrs.
  split; [exact Hrun |]. split; [exact Hscore |]. split; [exact Hhr |].
  assert (Hbeep : (if Text.found "Low risk of heart disease." (message a)
                   then m_beepTimer s
                   else if Text.found "High risk of heart disease." (message a)
                        then true else m_beepTimer s)
                  = (if printedRiskScore a <? 18 then m_beepTimer s else true)).
  { rewrite Hm, riskMessage_tier. unfold Spec.tierOf.
    destruct (Z.ltb_spec (printedRiskScore a) 18);
      repeat case_bool_decide; try lia; done. }
  rewrite Hs'.
  split; [by destruct (userdata w') |].
  split; [rewrite <- Hbeep; by destruct (userdata w') |].
  split; [by destruct (userdata w') |].
  split; [by destruct (userdata w') |].
  split; [exact Hw |]. split; [exact Hfile |].
  split; [by rewrite (Forall2_length _ _ _ Hshape) |].
  done.
Qed.

End DisplayFields.

(** The low-risk scenario on the screen. *)
Lemma displayed_risk_level_low (L : StdRandom) (T : NumberText)
    (clock : Z -> Z) (s : HeartHealthScreen.t) (w : World L) :
  sampler_contract L ->
  exists s' w',
    displayResults L T clock lowRiskProfile s w = Some (s', w') /\
    m_currentRisk s' = "low".
Proof.
  intros contract.
  destruct (displayResults_spec L T contract clock lowRiskProfile s w)
    as (a & dev1 & s' & w' & rows & hrs & Ha & Hrun & Hs' & _).
  destruct (displayResults_assessment L lowRiskProfile _ a dev1 contract Ha)
    as (Hscore & Hm & _).
  change (riskScore lowRiskProfile) with (Some 6) in Hscore.
  injection Hscore as Hscore. rewrite <- Hscore in Hm.
  exists s', w'. split; [exact Hrun |].
  rewrite Hs', Hm. by destruct (userdata w').
Qed.

(** X16. [displayResults] starts the beep timer for a High result and never
    stops one: after a Low or Moderate result the timer is as it was before
    the call, so a beep started by an earlier High result keeps running,
    until [reset] stops it. *)
Theorem beep_timer_is_never_stopped (L : StdRandom) (T : NumberText)
    (clock : Z -> Z) (familyData : FamilyHealth.t) (s : HeartHealthScreen.t)
    (w : World L) :
  sampler_contract L ->
  exists s' w' score,
    displayResults L T clock familyData s w = Some (s', w') /\
    riskScore familyData = Some score /\
    m_beepTimer s' = (if score <? 18 then m_beepTimer s else true) /\
    (m_beepTimer s = true -> m_beepTimer s' = true) /\
    m_beepTimer (reset s') = false.
Proof.
  intros contract.
  destruct (displayResults_fields L T contract clock familyData s w)
    as (a & s' & w' & rows & hrs & Hrun & Hscore & _ & _ & Hbeep & _).
  exists s', w', (printedRiskScore a).
  split; [exact Hrun |]. split; [exact Hscore |]. split; [exact Hbeep |].
  split; [| reflexivity].
  intros Hon. rewrite Hbeep, Hon. by case_match.
Qed.

Lemma beep_timer_is_never_stopped_witness :
  sampler_contract Release.library /\
  exists s1 w1 s2 w2,
    displayResults Release.library Decimal.text (fun _ => 1700000100)
      highRiskProfile olaScreen olaWorld = Some (s1, w1) /\
    m_beepTimer s1 = true /\
    displayResults Release.library Decimal.text (fun _ => 1700000200)
      lowRiskProfile s1 w1 = Some (s2, w2) /\
    m_currentRisk s2 = "low" /\
    m_beepTimer s2 = true.
Proof.
  split; [exact release_contract |].
  destruct (beep_timer_is_never_stopped Release.library Decimal.text
              (fun _ => 1700000100) highRiskProfile olaScreen olaWorld
              release_contract)
    as (s1 & w1 & sc1 & Hrun1 & Hsc1 & Hbeep1 & _).
  change (riskScore highRiskProfile) with (Some 25) in Hsc1.
  injection Hsc1 as <-. simpl in Hbeep1.
  destruct (beep_timer_is_never_stopped Release.library Decimal.text
              (fun _ => 1700000200) lowRiskProfile s1 w1 release_contract)
    as (s2 & w2 & sc2 & Hrun2 & Hsc2 & _ & Hkeep & _).
  destruct (displayed_risk_level_low Release.library Decimal.text
              (fun _ => 1700000200) s1 w1 release_contract)
    as (s2' & w2' & Hrun2' & Hlow).
  rewrite Hrun2 in Hrun2'. injection Hrun2' as <- <-.
  exists s1, w1, s2, w2.
  split; [exact Hrun1 |]. split; [exact Hbeep1 |]. split; [exact Hrun2 |].
  split; [exact Hlow | exact (Hkeep Hbeep1)].
Defined.

(** X17. [displayResults] never loses a row of [userdata.csv]: for a named
    user and a writable file the new content is the old lines, in order,
    followed by exactly 20 new rows of that user, each with a heart rate
    within 5 of the one shown on the screen, hence between 55 and 125; for
    an empty user name or a file that cannot be written the file is left as
    it was. *)
Theorem displayResults_appends_rows (L : StdRandom) (T : NumberText)
    (clock : Z -> Z) (familyData : FamilyHealth.t) (s : HeartHealthScreen.t)
    (w : World L) :
  sampler_contract L ->
  exists s' w' shown rows hrs,
    displayResults L T clock familyData s w = Some (s', w') /\
    heartRateLabel s' = "Heart Rate: " +:+ number_f1 T shown +:+ " BPM" /\
    userdata w'
    = (if negb (Text.isEmpty (user s)) && writable w
       then Some (default [] (userdata w) ++ rows)
       else userdata w) /\
    length rows = 20%nat /\
    Forall2 (fun row x =>
               exists now, row = user s +:+ "," +:+ number T now +:+ ","
                                 +:+ number_f1 T x) rows hrs /\
    Forall (fun x => (shown - 5 <= x <= shown + 5)%Q /\ (55 <= x <= 125)%Q)
      hrs.
Proof.
  intros contract.
  destruct (displayResults_fields L T contract clock familyData s w)
    as (a & s' & w' & rows & hrs & Hrun & _ & Hhr & Hlabel & _ & _ & _ & _
        & Hfile & Hlen & _ & Hb & Hshape).
  exists s', w', (heartRate a), rows, hrs.
  split; [exact Hrun |]. split; [exact Hlabel |]. split; [exact Hfile |].
  split; [exact Hlen |]. split; [exact Hshape |].
  eapply Forall_impl; [exact Hb |]. intros x Hx. simpl in Hx. split; lra.
Qed.

Lemma displayResults_appends_rows_witness :
  sampler_contract Release.library /\
  exists s' w' rows,
    displayResults Release.library Decimal.text (fun _ => 1700000100)
      highRiskProfile olaScreen olaWorld = Some (s', w') /\
    userdata w'
    = Some (["ola,1700000000,71.5"; "bob,1700000001,88.0"] ++ rows) /\
    length rows = 20%nat.
Proof.
  split; [exact release_contract |].
  destruct (displayResults_appends_rows Release.library Decimal.text
              (fun _ => 1700000100) highRiskProfile olaScreen olaWorld
              release_contract)
    as (s' & w' & shown & rows & hrs & Hrun & _ & Hfile & Hlen & _).
  by exists s', w', rows.
Defined.



(** ** loadDataFromCSV and the live chart *)

Lemma readRows_elem (u : string) (lines : list string) (h : string) :
  h ∈ readRows u lines [] <->
  exists line n,
    line ∈ lines /\ Text.split Text.comma (Text.trimmed line) = [u; n; h].
Proof.
  induction lines as [| line lines IH].
  - simpl. split; [intros []%elem_of_nil | intros (l & n & []%elem_of_nil & _)].
  - assert (Hskip : readRows u (line :: lines) [] = readRows u lines [] ->
                    ~ (exists n, Text.split Text.comma (Text.trimmed line)
                                 = [u; n; h]) ->
                    h ∈ readRows u (line :: lines) [] <->
                    exists l n, l ∈ line :: lines /\
                      Text.split Text.comma (Text.trimmed l) = [u; n; h]).
    { intros -> Hno. rewrite IH. split.
      - intros (l & n & Hl & Hs). exists l, n. split; [| done].
        apply elem_of_cons; auto.
      - intros (l & n & [-> | Hl]%elem_of_cons & Hs); [| by eauto].
        destruct Hno. eauto. }
    destruct (Text.isEmpty (Text.trimmed line)) eqn:He.
    { apply Hskip; [simpl; by rewrite He |].
      destruct (Text.trimmed line); [| done]. by intros (n & Hn). }
    destruct (Text.split Text.comma (Text.trimmed line))
      as [| p0 [| p1 [| p2 [| p3 parts]]]] eqn:Hsplit;
      try (apply Hskip; [simpl; by rewrite He, Hsplit
                        | by intros (n & Hn)]).
    destruct (decide (p0 = u)) as [-> | Hu].
    + assert (Hread : readRows u (line :: lines) [] = readRows u lines [p2]).
      { simpl. rewrite He, Hsplit. by case_decide. }
      rewrite Hread, readRows_acc, elem_of_app, list_elem_of_singleton, IH.
      split.
      * intros [-> | (l & n & Hl & Hs)].
        -- exists line, p1. split; [apply elem_of_cons; auto | done].
        -- exists l, n. split; [apply elem_of_cons; auto | done].
      * intros (l & n & [-> | Hl]%elem_of_cons & Hs).
        -- rewrite Hsplit in Hs. injection Hs as _ ->. by left.
        -- right. eauto.
    + apply Hskip; [simpl; rewrite He, Hsplit; by case_decide |].
      intros (n & Hn). congruence.
Qed.

(** X19. [loadDataFromCSV] loads the rows of the screen's user and nothing
    else: a text is among the live data exactly when some line of the file,
    trimmed, splits at the commas into exactly three fields of which the
    first is the user name and the third that text; blank lines, rows of
    other users and rows with more or fewer fields are skipped, and the
    replay index is reset. When the file cannot be opened the live data are
    emptied and the index is left as it was. *)
Theorem loadDataFromCSV_rows_of_user (lines : list string)
    (s : HeartHealthScreen.t) :
  (forall h : string,
      h ∈ liveDataLines (loadDataFromCSV (Some lines) s) <->
      exists line n,
        line ∈ lines /\
        Text.split Text.comma (Text.trimmed line) = [user s; n; h]) /\
  liveDataIndex (loadDataFromCSV (Some lines) s) = 0 /\
  liveDataLines (loadDataFromCSV None s) = [] /\
  liveDataIndex (loadDataFromCSV None s) = liveDataIndex s.
Proof.
  split; [| done]. intros h. simpl. apply readRows_elem.
Qed.

Section LiveChart.
Variable L : StdRandom.
Variable T : NumberText.
Hypothesis contract : sampler_contract L.

Lemma updateLiveChart_step (s : HeartHealthScreen.t) (dev : device L) :
  0 <= liveDataIndex s ->
  exists v dev',
    updateLiveChart L T s dev
    = Some (HeartHealthScreen.mk (user s) (resultLabel s) (heartRateLabel s)
              (m_currentRisk s) (m_beepTimer s)
              (heartRateSeries s ++ [(currentX s, v)]) (currentX s + 1)
              (if liveDataIndex s <? Z.of_nat (length (liveDataLines s))
               then liveDataIndex s + 1 else liveDataIndex s)
              (liveDataLines s), dev') /\
    shown T (liveDataLines s) (Z.to_nat (liveDataIndex s)) v.
Proof.
  intros Hidx. unfold updateLiveChart, shown.
  destruct (Z.ltb_spec (liveDataIndex s) (Z.of_nat (length (liveDataLines s))))
    as [Hlt | Hge].
  - assert (Hne : bool_decide (liveDataLines s = []) = false).
    { apply bool_decide_eq_false. intros Hnil. rewrite Hnil in Hlt.
      simpl in Hlt. lia. }
    rewrite Hne. cbn [negb andb].
    destruct (Z.ltb_spec (liveDataIndex s) 0); [lia |].
    destruct (lookup_lt_is_Some_2 (liveDataLines s)
                (Z.to_nat (liveDataIndex s)) ltac:(lia)) as [line Hline].
    rewrite Hline. cbn [mbind option_bind].
    eexists _, dev. split; [reflexivity |].
    by destruct (toDouble T line).
  - rewrite andb_false_r.
    destruct (contract 60%Q 100%Q dev ltac:(lra)) as (x & dev' & Hx & Hb).
    rewrite Hx. cbn [mbind option_bind].
    exists x, dev'. split; [reflexivity |].
    by rewrite lookup_ge_None_2 by lia.
Qed.

Lemma liveUpdates_spec (n : nat) (s : HeartHealthScreen.t) (dev : device L) :
  0 <= liveDataIndex s ->
  exists s' dev' points,
    liveUpdates L T n s dev = Some (s', dev') /\
    heartRateSeries s' = heartRateSeries s ++ points /\
    length points = n /\
    currentX s' = currentX s + Z.of_nat n /\
    liveDataLines s' = liveDataLines s /\
    liveDataIndex s'
    = (if liveDataIndex s <? Z.of_nat (length (liveDataLines s))
       then Z.min (liveDataIndex s + Z.of_nat n)
              (Z.of_nat (length (liveDataLines s)))
       else liveDataIndex s) /\
    forall (k : nat) (x : Z) (v : Q),
      points !! k = Some (x, v) ->
      x = currentX s + Z.of_nat k /\
      shown T (liveDataLines s) (Z.to_nat (liveDataIndex s) + k) v.
Proof.
  revert s dev. induction n as [| n IH]; intros s dev Hidx.
  - exists s, dev, []. simpl. rewrite app_nil_r.
    repeat split; try done; try lia.
    case_match; [| done]. apply Z.ltb_lt in H. lia.
  - destruct (updateLiveChart_step s dev Hidx) as (v & dev1 & Hstep & Hv).
    cbn [liveUpdates]. rewrite Hstep. cbn [mbind option_bind].
    set (s1 := HeartHealthScreen.mk _ _ _ _ _ _ _ _ _) in *.
    assert (Hidx1 : 0 <= liveDataIndex s1).
    { unfold s1. simpl. case_match; lia. }
    destruct (IH s1 dev1 Hidx1)
      as (s' & dev' & points & -> & Hseries & Hlen & Hx & Hlines & Hi & Hpts).
    exists s', dev', ((currentX s, v) :: points).
    split; [reflexivity |].
    split; [rewrite Hseries; unfold s1; simpl; by rewrite <- app_assoc |].
    split; [simpl; lia |].
    split; [rewrite Hx; unfold s1; simpl; lia |].
    split; [by rewrite Hlines |].
    split.
    { rewrite Hi. unfold s1. simpl.
      destruct (Z.ltb_spec (liveDataIndex s)
                  (Z.of_nat (length (liveDataLines s)))).
      - destruct (Z.ltb_spec (liveDataIndex s + 1)
                    (Z.of_nat (length (liveDataLines s)))); lia.
      - destruct (Z.ltb_spec (liveDataIndex s)
                    (Z.of_nat (length (liveDataLines s)))); lia. }
    intros [| k] x y Hk.
    + injection Hk as <- <-. split; [lia |]. by rewrite Nat.add_0_r.
    + simpl in Hk. destruct (Hpts k x y Hk) as [Hxk Hshown].
      split; [rewrite Hxk; unfold s1; simpl; lia |].
      unfold s1 in Hshown. simpl in Hshown. unfold shown in *.
      destruct (Z.ltb_spec (liveDataIndex s)
                  (Z.of_nat (length (liveDataLines s)))).
      * replace (Z.to_nat (liveDataIndex s) + S k)%nat
          with (Z.to_nat (liveDataIndex s + 1) + k)%nat by lia.
        exact Hshown.
      * rewrite lookup_ge_None_2 in Hshown by lia.
        by rewrite lookup_ge_None_2 by lia.
Qed.

End LiveChart.

(** X20. The live chart replays the loaded heart rates in order and then
    goes on with random ones: [n] calls of [updateLiveChart] append [n]
    points with consecutive x positions; the point for a line of the live
    data shows the number of that line (70 if the line is no number), each
    line once, and every point past the last line a value between 60 and
    100. The replay index stops at the number of lines and the live data
    are not changed. *)
Theorem live_chart_replays (L : StdRandom) (T : NumberText) (n : nat)
    (s : HeartHealthScreen.t) (dev : device L) :
  sampler_contract L ->
  0 <= liveDataIndex s ->
  exists s' dev' points,
    liveUpdates L T n s dev = Some (s', dev') /\
    heartRateSeries s' = heartRateSeries s ++ points /\
    length points = n /\
    currentX s' = currentX s + Z.of_nat n /\
    liveDataLines s' = liveDataLines s /\
    liveDataIndex s'
    = (if liveDataIndex s <? Z.of_nat (length (liveDataLines s))
       then Z.min (liveDataIndex s + Z.of_nat n)
              (Z.of_nat (length (liveDataLines s)))
       else liveDataIndex s) /\
    forall (k : nat) (x : Z) (v : Q),
      points !! k = Some (x, v) ->
      x = currentX s + Z.of_nat k /\
      match liveDataLines s !! (Z.to_nat (liveDataIndex s) + k)%nat with
      | Some line => v = default 70%Q (toDouble T line)
      | None => (60 <= v <= 100)%Q
      end.
Proof. intros contract Hidx. by apply liveUpdates_spec. Qed.

Lemma live_chart_replays_witness :
  sampler_contract Release.library /\
  exists s' dev' v,
    liveUpdates Release.library Decimal.text 2
      (loadDataFromCSV (userdata olaWorld) olaScreen) 0 = Some (s', dev') /\
    heartRateSeries s' = [(0, 71.5%Q); (1, v)] /\
    (60 <= v <= 100)%Q /\
    liveDataIndex s' = 1.
Proof.
  split; [exact release_contract |].
  destruct (live_chart_replays Release.library Decimal.text 2
              (loadDataFromCSV (userdata olaWorld) olaScreen) 0
              release_contract ltac:(simpl; lia))
    as (s' & dev' & points & Hrun & Hseries & Hlen & _ & _ & Hidx & Hpts).
  destruct points as [| [x0 v0] [| [x1 v1] [| ? ?]]]; try discriminate.
  destruct (Hpts 0%nat x0 v0 eq_refl) as [Hx0 Hv0].
  destruct (Hpts 1%nat x1 v1 eq_refl) as [Hx1 Hv1].
  simpl in Hx0, Hx1, Hv0, Hv1, Hseries, Hidx.
  exists s', dev', v1. subst x0 x1 v0.
  split; [exact Hrun |]. split; [exact Hseries |]. split; [exact Hv1 |].
  exact Hidx.
Defined.

(** ** The readings and the random source *)

(** X21. Within a tier the profile has no influence on the readings: two
    profiles whose scores fall in the same tier, assessed from the same
    state of the random source, get the same five readings and the same
    message (or both assessments stop in the library); only the printed
    score tells them apart. *)
Theorem readings_depend_on_tier_only (L : StdRandom)
    (f1 f2 : FamilyHealth.t) (s1 s2 : Z) (dev : device L) :
  riskScore f1 = Some s1 ->
  riskScore f2 = Some s2 ->
  Spec.tierOf s1 = Spec.tierOf s2 ->
  match assessHeartHealth L f1 dev, assessHeartHealth L f2 dev with
  | Some (a1, d1), Some (a2, d2) =>
      heartRate a1 = heartRate a2 /\ sysBP a1 = sysBP a2 /\
      diasBP a1 = diasBP a2 /\ cholesterol a1 = cholesterol a2 /\
      ecg a1 = ecg a2 /\ message a1 = message a2 /\ d1 = d2 /\
      printedRiskScore a1 = s1 /\ printedRiskScore a2 = s2
  | None, None => True
  | _, _ => False
  end.
Proof.
  intros H1 H2 Htier. unfold assessHeartHealth.
  rewrite H1, H2. cbn [mbind option_bind].
  rewrite !simulateSensors_tier, !riskMessage_tier, Htier. cbv zeta.
  destruct (simulate L _ _ _ _ _ dev) as [[[[[[v1 v2] v3] v4] v5] d] |];
    simpl; done.
Qed.

Lemma readings_depend_on_tier_only_witness :
  exists a1 a2 d,
    assessHeartHealth Release.library lowRiskProfile 0 = Some (a1, d) /\
    assessHeartHealth Release.library (setIsSmoker true lowRiskProfile) 0
    = Some (a2, d) /\
    heartRate a1 = heartRate a2 /\ ecg a1 = ecg a2 /\
    printedRiskScore a1 = 6 /\ printedRiskScore a2 = 8.
Proof.
  pose proof (readings_depend_on_tier_only Release.library lowRiskProfile
                (setIsSmoker true lowRiskProfile) 6 8 0 eq_refl eq_refl eq_refl)
    as H.
  destruct (assessHeartHealth Release.library lowRiskProfile 0)
    as [[a1 d1] |] eqn:E1;
    destruct (assessHeartHealth Release.library
                (setIsSmoker true lowRiskProfile) 0) as [[a2 d2] |] eqn:E2;
    try (exfalso; exact H); [| vm_compute in E1; discriminate E1].
  destruct H as (Hhr & _ & _ & _ & Hecg & _ & Hd & Hp1 & Hp2).
  exists a1, a2, d1. subst d2.
  split; [reflexivity |]. split; [reflexivity |]. split; [exact Hhr |].
  split; [exact Hecg |]. split; [exact Hp1 | exact Hp2].
Defined.

Lemma sample_device (L : StdRandom) (min max : Q) (dev : device L) (v : Q)
    (dev' : device L) :
  RandomNumberGenerator.sample L min max dev = Some (v, dev') ->
  dev' = snd (random_device L dev).
Proof.
  rewrite sample_unfold.
  destruct (uniform_real_distribution L min max); [| done]. by intros [= _ <-].
Qed.

(** X22. Every reading comes from a generator of its own, seeded afresh: an
    assessment reads the random device exactly five times, one seed per
    reading, whatever the profile and the tier. *)
Theorem assessment_reads_five_seeds (L : StdRandom) (family : FamilyHealth.t)
    (dev : device L) :
  sampler_contract L ->
  exists a,
    assessHeartHealth L family dev
    = Some (a, Nat.iter 5 (fun d => snd (random_device L d)) dev).
Proof.
  intros contract.
  destruct (assessHeartHealth_returns L family dev contract)
    as (a & dev' & Ha & _).
  exists a. rewrite Ha. do 2 f_equal.
  unfold assessHeartHealth in Ha.
  destruct (riskScore family) as [s |]; [| done]. cbn [mbind option_bind] in Ha.
  rewrite simulateSensors_tier in Ha. cbv zeta in Ha. unfold simulate in Ha.
  repeat match type of Ha with
         | context [RandomNumberGenerator.sample L ?a ?b ?d] =>
             let E := fresh "E" in
             destruct (RandomNumberGenerator.sample L a b d)
               as [[? ?] |] eqn:E; [| done];
             apply sample_device in E; cbn [mbind option_bind] in Ha
         end.
  injection Ha as _ <-. simpl. congruence.
Qed.

Lemma assessment_reads_five_seeds_witness :
  sampler_contract Release.library /\
  exists a, assessHeartHealth Release.library highRiskProfile 0 = Some (a, 5).
Proof.
  split; [exact release_contract |].
  exact (assessment_reads_five_seeds Release.library highRiskProfile 0
           release_contract).
Defined.
